(** * Kidney-transplant self-referral screener: the logic helpers of [app.py]

    A shallow embedding of [calculate_bmi] and [determine_eligibility]
    together with the dictionary that [main] compiles from the form, and the
    properties of the rule evaluator stated over it.

    Python values are dynamically typed, so the embedding carries a small
    universe of values ([pyval]), Python's truthiness, the comparisons the
    source performs, and an error monad for the exceptions a subscript or a
    comparison can raise.  Floats are IEEE binary64 numbers in the executable
    presentation of the Standard Library ([spec_float]). *)

From Stdlib Require Import ZArith Bool List Lia DecimalString.
From Stdlib Require Import Floats.SpecFloat.
From stdpp Require Import base option gmap strings list fin_maps.

Open Scope Z_scope.
Open Scope string_scope.

(** ** Python values and exceptions *)

Module Py.

Inductive pyval : Type :=
| PyNone
| PyBool (b : bool)
| PyInt (n : Z)
| PyFloat (x : spec_float)
| PyStr (s : string).

Inductive exn : Type :=
| KeyError (key : string)
| TypeError
| ZeroDivisionError
| OverflowError.

Inductive result (A : Type) : Type :=
| Ok (a : A)
| Raise (e : exn).
Arguments Ok {A} a.
Arguments Raise {A} e.

#[global] Instance result_ret : MRet result := fun _ a => Ok a.
#[global] Instance result_bind : MBind result := fun _ _ f r =>
  match r with
  | Ok a => f a
  | Raise e => Raise e
  end.

(** [bool(v)]: what an [if v:] tests. *)
Definition float_is_zero (x : spec_float) : bool :=
  match x with
  | S754_zero _ => true
  | _ => false
  end.

Definition truthy (v : pyval) : bool :=
  match v with
  | PyNone => false
  | PyBool b => b
  | PyInt n => negb (n =? 0)%Z
  | PyFloat x => negb (float_is_zero x)
  | PyStr s => negb (String.eqb s "")
  end.

(** [x > k] for a float [x] and an integer [k].  Python compares the two
    exactly: a finite float is [(-1)^s * m * 2^e], a NaN is greater than
    nothing, the infinities compare by sign. *)
Definition float_gt_int (x : spec_float) (k : Z) : bool :=
  match x with
  | S754_nan => false
  | S754_infinity s => negb s
  | S754_zero _ => (k <? 0)%Z
  | S754_finite s m e =>
      let v := cond_Zopp s (Zpos m) in
      if (0 <=? e)%Z then (k <? v * 2 ^ e)%Z else (k * 2 ^ (- e) <? v)%Z
  end.

(** [v > k] where [k] is an integer literal.  [bool] is a subclass of [int];
    [None] and strings do not order against a number. *)
Definition py_gt_int (v : pyval) (k : Z) : result bool :=
  match v with
  | PyNone => Raise TypeError
  | PyBool b => Ok (k <? Z.b2z b)%Z
  | PyInt n => Ok (k <? n)%Z
  | PyFloat x => Ok (float_gt_int x k)
  | PyStr _ => Raise TypeError
  end.

(** [v == s] where [s] is a string literal: only an equal string is equal. *)
Definition py_eq_str (v : pyval) (s : string) : bool :=
  match v with
  | PyStr t => String.eqb t s
  | _ => false
  end.

(** [d[key]] on a dictionary with string keys. *)
Definition getitem (d : gmap string pyval) (key : string) : result pyval :=
  match d !! key with
  | Some v => Ok v
  | None => Raise (KeyError key)
  end.

(** [str(n)] for an integer. *)
Definition str_int (n : Z) : string := NilZero.string_of_int (Z.to_int n).

End Py.
Import Py.

(** ** The data of one screening *)

(** [status] is one of the three string constants the evaluator assigns. *)
Inductive status : Type := eligible | conditional | ineligible.

#[global] Instance status_eq_dec : EqDecision status.
Proof. solve_decision. Defined.

(** Severity order of the verdicts. *)
Definition severity (s : status) : nat :=
  match s with
  | eligible => 0
  | conditional => 1
  | ineligible => 2
  end.

(** The two local variables of [determine_eligibility]. *)
Record state : Type := State { st_status : status; st_messages : list string }.

Definition initial_state : state := State eligible [].

(** [status = s; messages.append(msg)] *)
Definition flag (s : status) (msg : string) (st : state) : state :=
  State s (st_messages st ++ [msg]).

(** A run never lowers the severity between two consecutive states. *)
Fixpoint rises (tr : list state) : Prop :=
  match tr with
  | st :: (st' :: _) as rest =>
      (severity (st_status st) <= severity (st_status st'))%nat /\ rises rest
  | _ => True
  end.

(** The state a run ends in. *)
Definition final (tr : list state) : state := List.last tr initial_state.

(** The form as the spec's data model describes it (section 3): what the
    widgets of [main] hand over once the form is complete. *)
Inductive dialysis : Type := Yes | No.

Record ApplicantData : Type := Applicant {
  age : option Z;
  on_dialysis : dialysis;
  gfr : option spec_float;
  active_cancer : bool;
  active_infection : bool;
  substance_abuse : bool;
  heart_lung_disease : bool;
  social_support : bool
}.

Definition py_opt_int (o : option Z) : pyval :=
  match o with Some n => PyInt n | None => PyNone end.

Definition py_opt_float (o : option spec_float) : pyval :=
  match o with Some x => PyFloat x | None => PyNone end.

Definition py_dialysis (d : dialysis) : pyval :=
  match d with Yes => PyStr "Yes" | No => PyStr "No" end.

(** [social_support == "Yes"], the value [main] stores for the answer of the
    support radio ("Yes", "No / Unsure" or nothing selected). *)
Definition support_flag (answer : pyval) : bool := py_eq_str answer "Yes".

(** The dictionary literal of [main] ("Compile Data"); the field
    [social_support] of the record is the boolean [support_flag] computed. *)
Definition compile_data (a : ApplicantData) : gmap string pyval :=
  list_to_map
    [ ("age", py_opt_int (age a));
      ("on_dialysis", py_dialysis (on_dialysis a));
      ("gfr", py_opt_float (gfr a));
      ("active_cancer", PyBool (active_cancer a));
      ("active_infection", PyBool (active_infection a));
      ("substance_abuse", PyBool (substance_abuse a));
      ("heart_lung_disease", PyBool (heart_lung_disease a));
      ("social_support", PyBool (social_support a)) ].

(** ** The messages *)

Definition msg_cancer : string :=
  "Active malignancy (cancer) is typically a contraindication. Generally, you must be cancer-free for a specific period (often 2-5 years) before being listed.".

Definition msg_infection : string :=
  "Active systemic infections must be fully treated and resolved before transplantation can proceed.".

Definition msg_substance : string :=
  "Active substance abuse is a contraindication. Programs typically require a demonstrated period of sobriety/abstinence.".

Definition msg_heart_lung : string :=
  "Severe heart or lung disease requires a detailed clearance by a specialist to ensure you are healthy enough for surgery.".

Definition msg_age : string :=
  "While there is no strict age limit, candidates over 75 undergo a more rigorous evaluation to ensure they can tolerate the surgery and medication.".

Definition msg_support : string :=
  "Post-transplant care requires a dedicated support person. You will need to identify a support system to be listed.".

Definition msg_gfr : string :=
  "Typically, patients are listed for transplant when GFR drops below 20. If your GFR is between 20-30, you can still be evaluated, but waiting time may not accrue yet.".

Definition bmi_prefix : string := "Your calculated BMI is ".

(** A message about the BMI is one that starts with the f-strings' common
    opening. *)
Definition is_bmi_message (m : string) : bool := String.prefix bmi_prefix m.

Section Evaluator.

(** [repr] of a float belongs to the Python runtime, not to this program;
    the evaluator only splices its output into the two BMI messages. *)
Variable repr_float : spec_float -> string.

(** [f"{v}"] *)
Definition py_format (v : pyval) : string :=
  match v with
  | PyNone => "None"
  | PyBool true => "True"
  | PyBool false => "False"
  | PyInt n => str_int n
  | PyFloat x => repr_float x
  | PyStr s => s
  end.

Definition msg_bmi_over_40 (bmi : pyval) : string :=
  bmi_prefix +:+ py_format bmi +:+
  ". A BMI over 40 may delay listing. The team may work with you on a weight loss plan prior to surgery.".

Definition msg_bmi_over_35 (bmi : pyval) : string :=
  bmi_prefix +:+ py_format bmi +:+
  ". While eligible, a BMI over 35 carries higher surgical risks.".

(** ** The conditions of the [if] statements

    Each is the test of one rule, evaluated the way Python does: subscripts
    may raise [KeyError], [and] short-circuits on the truthiness of its left
    operand, a comparison may raise [TypeError]. *)

Definition stmt : Type := state -> result state.

Definition guard_flag (key : string) (data : gmap string pyval) : result bool :=
  v ← getitem data key; mret (truthy v).

Definition guard_cancer := guard_flag "active_cancer".
Definition guard_infection := guard_flag "active_infection".
Definition guard_substance := guard_flag "substance_abuse".
Definition guard_heart_lung := guard_flag "heart_lung_disease".

(** [data['age'] and data['age'] > 75] *)
Definition guard_age (data : gmap string pyval) : result bool :=
  a ← getitem data "age";
  if truthy a then a' ← getitem data "age"; py_gt_int a' 75 else mret false.

(** [data['social_support'] == "No / Unsure"] *)
Definition guard_support (data : gmap string pyval) : result bool :=
  v ← getitem data "social_support"; mret (py_eq_str v "No / Unsure").

(** [data['on_dialysis'] == "No"] with, nested,
    [data['gfr'] and data['gfr'] > 20] *)
Definition guard_gfr (data : gmap string pyval) : result bool :=
  d ← getitem data "on_dialysis";
  if py_eq_str d "No" then
    g ← getitem data "gfr";
    if truthy g then g' ← getitem data "gfr"; py_gt_int g' 20 else mret false
  else mret false.

(** [if bmi: if bmi > 40:] and its [elif bmi > 35:] *)
Definition guard_bmi_over_40 (bmi : pyval) : result bool :=
  if truthy bmi then py_gt_int bmi 40 else mret false.

Definition guard_bmi_over_35 (bmi : pyval) : result bool :=
  if truthy bmi then
    over40 ← py_gt_int bmi 40;
    if over40 : bool then mret false else py_gt_int bmi 35
  else mret false.

(** ** The statements *)

(** [if <guard>: status = s; messages.append(msg)] *)
Definition rule (g : result bool) (s : status) (msg : string) : stmt :=
  fun st => b ← g; mret (if b : bool then flag s msg st else st).

Definition check_cancer data : stmt := rule (guard_cancer data) ineligible msg_cancer.
Definition check_infection data : stmt := rule (guard_infection data) ineligible msg_infection.
Definition check_substance data : stmt := rule (guard_substance data) ineligible msg_substance.
Definition check_heart_lung data : stmt := rule (guard_heart_lung data) conditional msg_heart_lung.
Definition check_age data : stmt := rule (guard_age data) conditional msg_age.
Definition check_support data : stmt := rule (guard_support data) conditional msg_support.
Definition check_gfr data : stmt := rule (guard_gfr data) conditional msg_gfr.

(** The nested BMI test, an [if]/[elif] without [else]. *)
Definition check_bmi (bmi : pyval) : stmt := fun st =>
  if truthy bmi then
    over40 ← py_gt_int bmi 40;
    if over40 : bool then mret (flag conditional (msg_bmi_over_40 bmi) st)
    else
      over35 ← py_gt_int bmi 35;
      if over35 : bool then mret (flag conditional (msg_bmi_over_35 bmi) st)
      else mret st
  else mret st.

(** Statements run one after the other; an exception ends the run. *)
Fixpoint exec (prog : list stmt) (st : state) : result state :=
  match prog with
  | [] => mret st
  | s :: prog' => st' ← s st; exec prog' st'
  end.

(** "1. HARD STOPS" *)
Definition hard_stops (data : gmap string pyval) : list stmt :=
  [check_cancer data; check_infection data; check_substance data].

(** "2. CONDITIONAL / WARNINGS", the body of [if status != 'ineligible':] *)
Definition conditional_checks (data : gmap string pyval) (bmi : pyval) : list stmt :=
  [check_heart_lung data; check_bmi bmi; check_age data; check_support data;
   check_gfr data].

Definition determine_eligibility (data : gmap string pyval) (bmi : pyval)
  : result (status * list string) :=
  st ← exec (hard_stops data) initial_state;
  st ← (if decide (st_status st = ineligible) then mret st
        else exec (conditional_checks data bmi) st);
  mret (st_status st, st_messages st).

(** The same run, keeping the state after every statement.  The hard stops
    are statements 1 to 3; the body of the guarded block is entered only when
    they left the status other than ['ineligible']. *)
Fixpoint exec_trace (prog : list stmt) (st : state) : result (list state) :=
  match prog with
  | [] => mret []
  | s :: prog' => st' ← s st; tr ← exec_trace prog' st'; mret (st' :: tr)
  end.

Definition eligibility_trace (data : gmap string pyval) (bmi : pyval)
  : result (list state) :=
  tr1 ← exec_trace (hard_stops data) initial_state;
  let st := List.last tr1 initial_state in
  tr2 ← (if decide (st_status st = ineligible) then mret []
         else exec_trace (conditional_checks data bmi) st);
  mret (initial_state :: tr1 ++ tr2).

(** A statement keeps [P] and never lowers the severity when started in a
    state satisfying [P]. *)
Definition keeps (P : state -> Prop) (s : stmt) : Prop :=
  forall st st', P st -> s st = Ok st' ->
    P st' /\ (severity (st_status st) <= severity (st_status st'))%nat.

Definition not_ineligible (st : state) : Prop := st_status st <> ineligible.

(** A statement leaves the message list as it is or appends one message. *)
Definition step_appends (s : stmt) : Prop :=
  forall st st', s st = Ok st' ->
    st_messages st' = st_messages st
    \/ exists m, st_messages st' = (st_messages st ++ [m])%list.

(** ** The rule table, read off the guards

    A rule fires when its guard evaluates to [True].  The expected output
    lists the messages of the fired rules in the order 1 to 9; rules 4 to 9
    count only when no hard stop fired. *)

Definition fires (g : result bool) : bool :=
  match g with
  | Ok b => b
  | Raise _ => false
  end.

Definition pick (b : bool) (msg : string) : list string :=
  if b then [msg] else [].

Definition hard_stop_fired (data : gmap string pyval) : bool :=
  fires (guard_cancer data) || fires (guard_infection data)
  || fires (guard_substance data).

Definition conditional_fired (data : gmap string pyval) (bmi : pyval) : bool :=
  fires (guard_heart_lung data) || fires (guard_bmi_over_40 bmi)
  || fires (guard_bmi_over_35 bmi) || fires (guard_age data)
  || fires (guard_support data) || fires (guard_gfr data).

Definition hard_stop_messages (data : gmap string pyval) : list string :=
  pick (fires (guard_cancer data)) msg_cancer
  ++ pick (fires (guard_infection data)) msg_infection
  ++ pick (fires (guard_substance data)) msg_substance.

Definition conditional_messages (data : gmap string pyval) (bmi : pyval)
  : list string :=
  pick (fires (guard_heart_lung data)) msg_heart_lung
  ++ pick (fires (guard_bmi_over_40 bmi)) (msg_bmi_over_40 bmi)
  ++ pick (fires (guard_bmi_over_35 bmi)) (msg_bmi_over_35 bmi)
  ++ pick (fires (guard_age data)) msg_age
  ++ pick (fires (guard_support data)) msg_support
  ++ pick (fires (guard_gfr data)) msg_gfr.

Definition fired_messages (data : gmap string pyval) (bmi : pyval)
  : list string :=
  if hard_stop_fired data then hard_stop_messages data
  else conditional_messages data bmi.

Definition expected_status (data : gmap string pyval) (bmi : pyval) : status :=
  if hard_stop_fired data then ineligible
  else if conditional_fired data bmi then conditional
  else eligible.

End Evaluator.

(** ** Float arithmetic of [calculate_bmi] *)

Module Float64.

Definition prec : Z := 53.
Definition emax : Z := 1024.

(** [float(n)] for an integer that a double holds (exactly when
    [|n| < 2^53]). *)
Definition of_int (n : Z) : spec_float := binary_normalize prec emax n 0 false.

(** An integer as an unnormalised mantissa with exponent 0, the form in
    which the division below takes its operands. *)
Definition raw_int (n : Z) : spec_float :=
  match n with
  | Z0 => S754_zero false
  | Zpos p => S754_finite false p 0
  | Zneg p => S754_finite true p 0
  end.

(** [a / b] on two Python integers: the quotient rounded once to the
    nearest double (ties to even).  A zero divisor and a quotient beyond the
    range of a double raise. *)
Definition int_truediv (a b : Z) : result spec_float :=
  if (b =? 0)%Z then Raise ZeroDivisionError
  else if (a =? 0)%Z then Ok (S754_zero (b <? 0)%Z)
  else
    match SFdiv prec emax (raw_int a) (raw_int b) with
    | S754_infinity _ => Raise OverflowError
    | q => Ok q
    end.

(** [x * k] for a float and a small integer literal: the literal converts
    exactly and the product is an IEEE multiplication (an overflow gives an
    infinity, not an exception). *)
Definition mul_int (x : spec_float) (k : Z) : spec_float :=
  SFmul prec emax x (of_int k).

(** The integer nearest to [m * 2^e * scale], ties to the even one. *)
Definition nearest_even (m : positive) (e : Z) (scale : Z) : Z :=
  if (0 <=? e)%Z then (Zpos m * 2 ^ e * scale)%Z
  else
    let num := (Zpos m * scale)%Z in
    let den := (2 ^ (- e))%Z in
    let q := (num / den)%Z in
    let r := (num mod den)%Z in
    match (2 * r ?= den)%Z with
    | Lt => q
    | Gt => (q + 1)%Z
    | Eq => if Z.even q then q else (q + 1)%Z
    end.

(** [round(x, ndigits)] for a float and [0 <= ndigits] (small enough not to
    hit the cut-offs of the runtime): the exact binary value is rounded to
    [ndigits] decimals, ties to even, and the decimal is read back as the
    nearest double.  Zeros, infinities and NaN round to themselves. *)
Definition round (x : spec_float) (ndigits : nat) : spec_float :=
  match x with
  | S754_finite s m e =>
      let scale := (10 ^ Z.of_nat ndigits)%Z in
      match nearest_even m e scale with
      | Zpos n => SFdiv prec emax (S754_finite s n 0) (raw_int scale)
      | _ => S754_zero s
      end
  | _ => x
  end.

End Float64.

(** ** The BMI helper *)

(** [calculate_bmi(height_ft, height_in, weight_lbs)]: the feet and the
    weight are integers or [None], the inches an integer. *)
Definition calculate_bmi (height_ft : option Z) (height_in : Z)
    (weight_lbs : option Z) : result (option spec_float) :=
  if truthy (py_opt_int height_ft) && truthy (py_opt_int weight_lbs) then
    match height_ft, weight_lbs with
    | Some ft, Some lbs =>
        let total_inches := (ft * 12 + height_in)%Z in
        if (0 <? total_inches)%Z then
          q ← Float64.int_truediv lbs (total_inches ^ 2);
          mret (Some (Float64.round (Float64.mul_int q 703) 1))
        else mret None
    | _, _ => mret None
    end
  else mret None.

(** The call in [main]:
    [calculate_bmi(height_ft, height_in if height_in is not None else 0, weight)] *)
Definition current_bmi (height_ft height_in weight : option Z)
  : result (option spec_float) :=
  calculate_bmi height_ft (match height_in with Some i => i | None => 0%Z end)
    weight.

(** ** The rules on a compiled form

    What the tests of rules 5, 6, 7 and 9 come to on the typed record. *)

Definition over (x : option spec_float) (k : Z) : bool :=
  match x with
  | Some v => float_gt_int v k
  | None => false
  end.

Definition age_over (a : ApplicantData) (k : Z) : bool :=
  match age a with
  | Some n => (k <? n)%Z
  | None => false
  end.

Definition gfr_rule (a : ApplicantData) : bool :=
  match on_dialysis a with
  | No => over (gfr a) 20
  | Yes => false
  end.

Definition no_hard_stop (a : ApplicantData) : bool :=
  negb (active_cancer a || active_infection a || substance_abuse a).

(** ** Sample inputs *)

(** A stand-in for the runtime's [repr] when the model is run on concrete
    inputs: the integer part and one decimal, which is what [repr] prints
    for the one-decimal values that [calculate_bmi] returns in the range of
    a BMI. *)
Definition repr_one_decimal (x : spec_float) : string :=
  match x with
  | S754_zero false => "0.0"
  | S754_zero true => "-0.0"
  | S754_infinity false => "inf"
  | S754_infinity true => "-inf"
  | S754_nan => "nan"
  | S754_finite s m e =>
      let t := Float64.nearest_even m e 10 in
      (if s then "-" else "") +:+ str_int (t / 10) +:+ "." +:+ str_int (t mod 10)
  end.

(** 22.9 and 23.0 as doubles. *)
Definition f22_9 : spec_float := Eval vm_compute in
  match Float64.int_truediv 229 10 with Ok x => x | Raise _ => S754_nan end.

Definition f23_0 : spec_float := Eval vm_compute in Float64.of_int 23.

Definition f42_0 : spec_float := Eval vm_compute in Float64.of_int 42.

(** The first end-to-end example of the spec: age 30, not on dialysis,
    GFR 15, no condition ticked, a support person. *)
Definition example_1 : ApplicantData :=
  {| age := Some 30%Z; on_dialysis := No; gfr := Some (Float64.of_int 15);
     active_cancer := false; active_infection := false;
     substance_abuse := false; heart_lung_disease := false;
     social_support := true |}.

(** The same applicant answering "No / Unsure" to the support question:
    [main] stores [social_support == "Yes"], the boolean [False]. *)
Definition example_no_support : ApplicantData :=
  {| age := Some 30%Z; on_dialysis := No; gfr := Some (Float64.of_int 15);
     active_cancer := false; active_infection := false;
     substance_abuse := false; heart_lung_disease := false;
     social_support := support_flag (PyStr "No / Unsure") |}.

(** The third end-to-end example: age 80, BMI 42, GFR 10. *)
Definition example_3 : ApplicantData :=
  {| age := Some 80%Z; on_dialysis := No; gfr := Some (Float64.of_int 10);
     active_cancer := false; active_infection := false;
     substance_abuse := false; heart_lung_disease := false;
     social_support := true |}.

(** On dialysis, no age, no GFR, a heart or lung disease. *)
Definition example_on_dialysis : ApplicantData :=
  {| age := None; on_dialysis := Yes; gfr := None;
     active_cancer := false; active_infection := false;
     substance_abuse := false; heart_lung_disease := true;
     social_support := true |}.

(** Not on dialysis with a GFR of 25, nothing else of note. *)
Definition example_gfr_25 : ApplicantData :=
  {| age := Some 50%Z; on_dialysis := No; gfr := Some (Float64.of_int 25);
     active_cancer := false; active_infection := false;
     substance_abuse := false; heart_lung_disease := false;
     social_support := true |}.

(** The states the evaluator goes through on the third example. *)
Definition example_3_trace : list state :=
  [ initial_state; initial_state; initial_state; initial_state;
    initial_state;
    State conditional [msg_bmi_over_40 repr_one_decimal (PyFloat f42_0)];
    State conditional [msg_bmi_over_40 repr_one_decimal (PyFloat f42_0); msg_age];
    State conditional [msg_bmi_over_40 repr_one_decimal (PyFloat f42_0); msg_age];
    State conditional [msg_bmi_over_40 repr_one_decimal (PyFloat f42_0); msg_age] ].

(** An applicant with an active cancer and an active substance abuse, and
    every conditional trigger set as well. *)
Definition example_hard_stop : ApplicantData :=
  {| age := Some 80%Z; on_dialysis := No; gfr := Some (Float64.of_int 25);
     active_cancer := true; active_infection := false;
     substance_abuse := true; heart_lung_disease := true;
     social_support := false |}.

(** * The pages

    What [render_header], [render_results] and [main] put on the screen, as
    the list of Streamlit calls they make, in order.  A [with] block is an
    element with children. *)

Open Scope list_scope.

#[warnings="-register-all"]
Inductive element : Type :=
| st_markdown (body : string) (unsafe_allow_html : bool)
| st_info (body : string)
| st_success (body : string)
| st_warning (body : string)
| st_error (body : string)
| st_write (body : string)
| st_caption (body : string)
| st_subheader (body : string)
| st_divider
| st_number_input (label : string)
| st_radio (label : string) (options : list string)
| st_selectbox (label : string) (options : list Z)
| st_checkbox (label : string)
| st_button (label : string) (disabled : bool)
| st_container (children : list element)
| st_columns (cols : list (list element)).

(** The elements of a page with the containers and columns opened up, in
    display order. *)
Fixpoint leaves (e : element) : list element :=
  match e with
  | st_container es =>
      (fix go (l : list element) : list element :=
         match l with [] => [] | x :: l' => leaves x ++ go l' end) es
  | st_columns cs =>
      (fix go_cols (c : list (list element)) : list element :=
         match c with
         | [] => []
         | col :: c' =>
             (fix go (l : list element) : list element :=
                match l with [] => [] | x :: l' => leaves x ++ go l' end) col
             ++ go_cols c'
         end) cs
  | _ => [e]
  end.

Definition page_leaves (page : list element) : list element :=
  flat_map leaves page.

(** A bullet of the "Specific Considerations" list: [st.markdown(f"- {msg}")]. *)
Definition is_bullet (e : element) : bool :=
  match e with
  | st_markdown body _ => String.prefix "- " body
  | _ => false
  end.

Definition bullet (msg : string) : element :=
  st_markdown ("- " +:+ msg) false.

Definition header_html : string :=
  "
    <div style='background-color: #1e3a8a; padding: 20px; border-radius: 10px; margin-bottom: 20px;'>
        <h1 style='color: white; margin: 0;'>Sanford Kidney Transplant</h1>
        <p style='color: #bfdbfe; margin: 0;'>Self-Referral Eligibility Screener (Fargo, ND)</p>
    </div>
    ".

Definition render_header : list element :=
  [ st_markdown header_html true;
    st_info "ℹ️ This form assesses potential eligibility based on standard transplant guidelines. It is not a medical diagnosis." ].

Definition contact_phone : string :=
  "
            **📞 Call to Self-Refer:**
            
            **(701) 234-6246**
            
            or (701) 234-3360
            ".

Definition contact_location : string :=
  "
            **📍 Location:**
            
            **Sanford Broadway Medical Building**
            
            736 Broadway N, Fargo, ND 58102
            ".

Definition results_heading : list element :=
  [ st_divider; st_subheader "Screening Results" ].

Definition next_steps_heading : list element :=
  [ st_markdown "---" false; st_markdown "### ❤️ Next Steps" false ].

Definition considerations_title : string := "**Specific Considerations:**".

Definition caption_incomplete : string :=
  "Please complete all required fields above to proceed.".

(** The status box of [render_results]: an [if]/[elif]/[elif] on the three
    status strings. *)
Definition status_box (s : status) : list element :=
  match s with
  | eligible =>
      [ st_success "## ✅ Likely Eligible for Evaluation";
        st_write "Based on your responses, you appear to meet the initial screening criteria for a kidney transplant evaluation at Sanford Fargo." ]
  | conditional =>
      [ st_warning "## ⚠️ Conditional Eligibility";
        st_write "You may be eligible, but there are specific factors (BMI, age, or medical history) that the transplant team will need to evaluate closely." ]
  | ineligible =>
      [ st_error "## ❌ Likely Ineligible at this time";
        st_write "Based on standard transplant guidelines, there are contraindications present that typically prevent listing." ]
  end.

(** [if messages:] the container with the heading and one bullet per
    message. *)
Definition considerations (messages : list string) : list element :=
  match messages with
  | [] => []
  | _ => [ st_container (st_markdown considerations_title false
                         :: List.map bullet messages) ]
  end.

(** The "Next Steps" section: advice to see a doctor for an ineligible
    verdict, otherwise the invitation to self-refer and the contact card. *)
Definition next_steps (s : status) : list element :=
  match s with
  | ineligible =>
      [ st_write "Please speak with your primary doctor or nephrologist to manage the conditions listed above. If your situation changes (e.g., cancer remission, infection cleared), you can re-apply." ]
  | _ =>
      [ st_write "You do **not** need a doctor's referral to start the process. You can self-refer by contacting the Sanford Transplant Center directly.";
        st_columns [ [st_info contact_phone]; [st_info contact_location] ] ]
  end.

(** The session state of the app: the key ['result'] is missing on the very
    first run, then holds [None] or the last verdict. *)
Inductive session : Type :=
| NoKey
| Stored (r : option (status * list string)).

(** What one run of the script leaves behind: the page drawn so far, the
    session state, and whether it ended in [st.rerun()]. *)
Record outcome : Type := Outcome {
  page : list element;
  next_session : session;
  rerun : bool
}.

(** [render_results()], reading the verdict [(s, messages)] from the session;
    [start_over] tells whether the "Start Over" button was clicked. *)
Definition render_results (s : status) (messages : list string)
    (start_over : bool) : outcome :=
  let drawn :=
    results_heading
    ++ status_box s
    ++ considerations messages
    ++ next_steps_heading
    ++ next_steps s
    ++ [ st_button "Start Over" false ] in
  if start_over then Outcome drawn (Stored None) true
  else Outcome drawn (Stored (Some (s, messages))) false.

(** ** The form *)

Inductive support_answer : Type := SupportYes | SupportNoUnsure.

(** The values the widgets of [main] return: [None] for a number input left
    empty ([value=None]) or a radio or select box without a choice
    ([index=None]).  The GFR input starts at its minimum 0.0 and is only
    drawn, and read, when the dialysis answer is "No". *)
Record Form : Type := MkForm {
  f_age : option Z;
  f_on_dialysis : option dialysis;
  f_gfr : spec_float;
  f_height_ft : option Z;
  f_height_in : option Z;
  f_weight : option Z;
  f_active_cancer : bool;
  f_active_infection : bool;
  f_substance_abuse : bool;
  f_heart_lung_disease : bool;
  f_social_support : option support_answer
}.

Definition py_opt_dialysis (o : option dialysis) : pyval :=
  match o with Some d => py_dialysis d | None => PyNone end.

Definition py_support (o : option support_answer) : pyval :=
  match o with
  | Some SupportYes => PyStr "Yes"
  | Some SupportNoUnsure => PyStr "No / Unsure"
  | None => PyNone
  end.

(** [v is None] *)
Definition is_none (v : pyval) : bool :=
  match v with PyNone => true | _ => false end.

(** [v == 0] *)
Definition py_eq_zero (v : pyval) : bool :=
  match v with
  | PyNone => false
  | PyBool b => negb b
  | PyInt n => (n =? 0)%Z
  | PyFloat x => float_is_zero x
  | PyStr _ => false
  end.

(** [gfr = None; if on_dialysis == "No": gfr = st.number_input(...)] *)
Definition form_gfr (f : Form) : pyval :=
  if py_eq_str (py_opt_dialysis (f_on_dialysis f)) "No" then PyFloat (f_gfr f)
  else PyNone.

(** The two tests under "Validate Button". *)
Definition form_valid (f : Form) : bool :=
  let form_valid := true in
  let form_valid :=
    if is_none (py_opt_int (f_age f)) || is_none (py_opt_int (f_height_ft f))
       || is_none (py_opt_int (f_weight f))
       || is_none (py_opt_dialysis (f_on_dialysis f))
       || is_none (py_support (f_social_support f))
    then false else form_valid in
  if py_eq_str (py_opt_dialysis (f_on_dialysis f)) "No"
     && (is_none (form_gfr f) || py_eq_zero (form_gfr f))
  then false else form_valid.

(** The dictionary literal of [main], on the widget values. *)
Definition form_data (f : Form) : gmap string pyval :=
  list_to_map
    [ ("age", py_opt_int (f_age f));
      ("on_dialysis", py_opt_dialysis (f_on_dialysis f));
      ("gfr", form_gfr f);
      ("active_cancer", PyBool (f_active_cancer f));
      ("active_infection", PyBool (f_active_infection f));
      ("substance_abuse", PyBool (f_substance_abuse f));
      ("heart_lung_disease", PyBool (f_heart_lung_disease f));
      ("social_support", PyBool (support_flag (py_support (f_social_support f)))) ].

(** The applicant record a form with a dialysis answer [d] stands for. *)
Definition applicant_of (f : Form) (d : dialysis) : ApplicantData :=
  {| age := f_age f; on_dialysis := d;
     gfr := match d with No => Some (f_gfr f) | Yes => None end;
     active_cancer := f_active_cancer f;
     active_infection := f_active_infection f;
     substance_abuse := f_substance_abuse f;
     heart_lung_disease := f_heart_lung_disease f;
     social_support := support_flag (py_support (f_social_support f)) |}.

(** The ranges the widgets enforce: age 0 to 120, feet among 4 to 7, inches
    among 0 to 11, a weight and a GFR that are not negative. *)
Definition opt_between (lo hi : Z) (o : option Z) : bool :=
  match o with
  | Some n => (lo <=? n)%Z && (n <=? hi)%Z
  | None => true
  end.

Definition float_nonneg (x : spec_float) : bool :=
  match x with
  | S754_zero _ => true
  | S754_infinity s => negb s
  | S754_nan => false
  | S754_finite s _ _ => negb s
  end.

Definition in_widget_ranges (f : Form) : bool :=
  opt_between 0 120 (f_age f) && opt_between 4 7 (f_height_ft f)
  && opt_between 0 11 (f_height_in f)
  && match f_weight f with Some w => (0 <=? w)%Z | None => true end
  && float_nonneg (f_gfr f).

(** A weight whose quotient by the squared height fits a double. *)
Definition weight_in_float_range (f : Form) : bool :=
  match f_weight f with
  | Some w => (w <? 2 ^ 1023)%Z
  | None => true
  end.

(** The form with another answer to the support question. *)
Definition with_support (f : Form) (answer : option support_answer) : Form :=
  {| f_age := f_age f; f_on_dialysis := f_on_dialysis f; f_gfr := f_gfr f;
     f_height_ft := f_height_ft f; f_height_in := f_height_in f;
     f_weight := f_weight f; f_active_cancer := f_active_cancer f;
     f_active_infection := f_active_infection f;
     f_substance_abuse := f_substance_abuse f;
     f_heart_lung_disease := f_heart_lung_disease f;
     f_social_support := answer |}.

(** Between two consecutive states the message list is kept or gets one
    message at its end. *)
Fixpoint appends (tr : list state) : Prop :=
  match tr with
  | st :: (st' :: _) as rest =>
      (st_messages st' = st_messages st
       \/ exists m, st_messages st' = st_messages st ++ [m])
      /\ appends rest
  | _ => True
  end.

Section Pages.

Variable repr_float : spec_float -> string.

(** "Live BMI Calc": the colour of the line follows the two thresholds. *)
Definition bmi_color (bmi : spec_float) : string :=
  if float_gt_int bmi 40 then "red"
  else if float_gt_int bmi 35 then "orange" else "green".

Definition bmi_line (bmi : option spec_float) : list element :=
  match bmi with
  | Some x =>
      if truthy (PyFloat x) then
        [ st_markdown ("**Calculated BMI:** :" +:+ bmi_color x +:+ "["
                       +:+ repr_float x +:+ "]") false ]
      else []
  | None => []
  end.

(** The widgets of the form down to the button, given the BMI computed on
    the way and the validity of the form. *)
Definition form_widgets (f : Form) (bmi : option spec_float) : list element :=
  [ st_subheader "👤 Basic Information";
    st_number_input "Age";
    st_divider;
    st_subheader "🏥 Kidney Health";
    st_radio "Are you currently on dialysis?" ["Yes"; "No"] ]
  ++ (if py_eq_str (py_opt_dialysis (f_on_dialysis f)) "No"
      then [ st_number_input "What is your most recent GFR? (Found on BMP/CMP labs)" ]
      else [])
  ++ [ st_divider;
       st_subheader "⚖️ Body Measurements";
       st_columns [ [st_selectbox "Height (Feet)" [4; 5; 6; 7]%Z];
                    [st_selectbox "Height (Inches)" (List.map Z.of_nat (seq 0 12))] ];
       st_number_input "Weight (lbs)" ]
  ++ bmi_line bmi
  ++ [ st_divider;
       st_subheader "🩺 Medical History";
       st_caption "Check any conditions that **currently** apply to you:";
       st_checkbox "Active Cancer / Malignancy";
       st_checkbox "Active Infection (requiring antibiotics)";
       st_checkbox "Active Substance Abuse (Alcohol or Drugs)";
       st_checkbox "Severe Heart or Lung Disease (e.g., COPD requiring O2)";
       st_divider;
       st_subheader "👥 Social Support";
       st_radio "Do you have a dedicated support person (friend or family member) who can assist you after surgery?" ["Yes"; "No / Unsure"];
       st_divider;
       st_button "Check Eligibility" (negb (form_valid f)) ].

(** [main()]: one run of the script on a session state, the widget values
    and the clicks on the two buttons.  A disabled button is never clicked.
    An exception of the BMI helper or of the evaluator ends the run. *)
Definition main (ss : session) (f : Form) (check_clicked start_over_clicked : bool)
  : result outcome :=
  let stored := match ss with NoKey => None | Stored r => r end in
  match stored with
  | Some (s, messages) =>
      let r := render_results s messages start_over_clicked in
      mret (Outcome (render_header ++ page r) (next_session r) (rerun r))
  | None =>
      current_bmi ← current_bmi (f_height_ft f) (f_height_in f) (f_weight f);
      let widgets := form_widgets f current_bmi in
      if check_clicked && form_valid f then
        verdict ← determine_eligibility repr_float (form_data f)
                    (py_opt_float current_bmi);
        mret (Outcome (render_header ++ [st_container widgets])
                (Stored (Some verdict)) true)
      else
        let caption :=
          if negb (form_valid f) then [ st_caption caption_incomplete ]
          else [] in
        mret (Outcome (render_header ++ [st_container (widgets ++ caption)])
                (Stored None) false)
  end.

End Pages.

(** A complete form: the first end-to-end example, with a support person. *)
Definition form_example_1 : Form :=
  {| f_age := Some 30%Z; f_on_dialysis := Some No; f_gfr := Float64.of_int 15;
     f_height_ft := Some 5%Z; f_height_in := Some 10%Z; f_weight := Some 160%Z;
     f_active_cancer := false; f_active_infection := false;
     f_substance_abuse := false; f_heart_lung_disease := false;
     f_social_support := Some SupportYes |}.

(** The same form with an active cancer ticked. *)
Definition form_cancer : Form :=
  {| f_age := Some 30%Z; f_on_dialysis := Some No; f_gfr := Float64.of_int 15;
     f_height_ft := Some 5%Z; f_height_in := Some 10%Z; f_weight := Some 160%Z;
     f_active_cancer := true; f_active_infection := false;
     f_substance_abuse := false; f_heart_lung_disease := false;
     f_social_support := Some SupportYes |}.

(** A form whose weight is still empty. *)
Definition form_incomplete : Form :=
  {| f_age := Some 30%Z; f_on_dialysis := Some Yes; f_gfr := Float64.of_int 0;
     f_height_ft := Some 5%Z; f_height_in := None; f_weight := None;
     f_active_cancer := false; f_active_infection := false;
     f_substance_abuse := false; f_heart_lung_disease := false;
     f_social_support := Some SupportYes |}.

(** * Facts about the float arithmetic

    The division of two integers raises [OverflowError] only when the
    rounded quotient leaves the range of a double.  The lemmas below follow
    the rounding of [binary_round_aux] far enough to show that a dividend
    below [2^1023] never does. *)

Section DivisionRange.
Local Open Scope Z_scope.

Lemma Zdigits2_log2 p : Zdigits2 (Zpos p) = Z.log2 (Zpos p) + 1.
Proof.
  assert (H : forall q, Zpos (digits2_pos q) = Zpos (Pos.size q)).
  { induction q; cbn; congruence. }
  cbn [Zdigits2]. rewrite H. destruct p; cbn; lia.
Qed.

Lemma Zdigits2_nonneg m : 0 <= Zdigits2 m.
Proof. destruct m; cbn; lia. Qed.

Lemma Zdigits2_bound m k : 0 <= m -> 0 <= k -> m < 2 ^ k -> Zdigits2 m <= k.
Proof.
  intros Hm Hk Hlt. destruct m as [|p|p]; [cbn; lia| |lia].
  rewrite Zdigits2_log2. apply Z.log2_lt_pow2 in Hlt; lia.
Qed.

Lemma Zdigits2_gt m : 0 <= m -> m < 2 ^ Zdigits2 m.
Proof.
  intros Hm. destruct m as [|p|p]; [cbn; lia| |lia].
  rewrite Zdigits2_log2. apply Z.log2_spec. lia.
Qed.

Lemma shr_1_m r : 0 <= shr_m r -> shr_m (shr_1 r) = shr_m r / 2.
Proof.
  destruct r as [m rb sb]. cbn [shr_m]. intros Hm.
  destruct m as [|[p|p|]|p]; cbn [shr_1 shr_m]; try lia; try reflexivity.
  - apply (Z.div_unique (Zpos p~1) 2 (Zpos p) 1); lia.
  - apply (Z.div_unique (Zpos p~0) 2 (Zpos p) 0); lia.
Qed.

Lemma pow2_xO p : 2 ^ Zpos p~0 = 2 ^ Zpos p * 2 ^ Zpos p.
Proof. rewrite <- Z.pow_add_r by lia. f_equal. lia. Qed.

Lemma pow2_xI p : 2 ^ Zpos p~1 = 2 * (2 ^ Zpos p * 2 ^ Zpos p).
Proof.
  rewrite <- Z.pow_add_r by lia.
  replace (Zpos p~1) with (1 + (Zpos p + Zpos p)) by lia.
  rewrite Z.pow_add_r by lia. reflexivity.
Qed.

Lemma iter_shr_1_m p : forall r, 0 <= shr_m r ->
  shr_m (SpecFloat.iter_pos shr_1 p r) = shr_m r / 2 ^ Zpos p.
Proof.
  induction p as [p IH|p IH|]; intros r Hr; cbn [SpecFloat.iter_pos].
  - assert (H1 : 0 <= shr_m (shr_1 r)) by (rewrite shr_1_m by lia; apply Z.div_pos; lia).
    assert (H2 : 0 <= shr_m (SpecFloat.iter_pos shr_1 p (shr_1 r)))
      by (rewrite IH by lia; apply Z.div_pos; lia).
    rewrite IH, IH, shr_1_m by lia.
    rewrite !Z.div_div by lia. now rewrite pow2_xI.
  - assert (H2 : 0 <= shr_m (SpecFloat.iter_pos shr_1 p r))
      by (rewrite IH by lia; apply Z.div_pos; lia).
    rewrite IH, IH by lia. rewrite Z.div_div by lia. now rewrite pow2_xO.
  - rewrite shr_1_m by lia. reflexivity.
Qed.

Lemma shr_m_shr r e n : 0 <= shr_m r ->
  shr_m (fst (shr r e n)) = shr_m r / 2 ^ Z.max 0 n /\ snd (shr r e n) = e + Z.max 0 n.
Proof.
  intros Hr. destruct n as [|p|p]; cbn [shr fst snd].
  - rewrite Z.div_1_r. lia.
  - rewrite iter_shr_1_m by lia. rewrite Z.max_r by lia. lia.
  - rewrite Z.div_1_r. lia.
Qed.

Lemma shr_m_record_of_loc m l : shr_m (shr_record_of_loc m l) = m.
Proof. destruct l as [|[]]; reflexivity. Qed.

Lemma round_nearest_even_bounds m l :
  m <= round_nearest_even m l <= m + 1.
Proof.
  destruct l as [|[]]; cbn; try lia. destruct (Z.even m); lia.
Qed.

(** The size of a mantissa after a right shift. *)
Lemma div_pow2_bound m d n :
  0 <= m -> 0 <= n -> 0 <= d -> m < 2 ^ d -> m / 2 ^ n < 2 ^ Z.max 0 (d - n).
Proof.
  intros Hm Hn Hd Hlt.
  apply Z.div_lt_upper_bound; [lia|].
  rewrite <- Z.pow_add_r by lia.
  eapply Z.lt_le_trans; [exact Hlt|]. apply Z.pow_le_mono_r; lia.
Qed.

Lemma binary_round_aux_finite s m e l :
  0 <= m -> e <= 971 -> Zdigits2 m + e <= 1023 ->
  forall s', binary_round_aux 53 1024 s m e l <> S754_infinity s'.
Proof.
  intros Hm He Hd s'. unfold binary_round_aux, shr_fexp.
  set (n1 := fexp 53 1024 (Zdigits2 m + e) - e).
  pose proof (Zdigits2_nonneg m) as Hdn.
  pose proof (Zdigits2_gt m Hm) as Hgt.
  destruct (shr_m_shr (shr_record_of_loc m l) e n1) as [Hm1 He1];
    [rewrite shr_m_record_of_loc; lia|].
  rewrite shr_m_record_of_loc in Hm1.
  destruct (shr (shr_record_of_loc m l) e n1) as [mrs1 e1]. cbn [fst snd] in *.
  set (m1' := round_nearest_even (shr_m mrs1) (loc_of_shr_record mrs1)).
  pose proof (round_nearest_even_bounds (shr_m mrs1) (loc_of_shr_record mrs1)) as Hb.
  fold m1' in Hb.
  assert (H1 : 0 <= shr_m mrs1) by (rewrite Hm1; apply Z.div_pos; lia).
  assert (H1lt : shr_m mrs1 < 2 ^ Z.max 0 (Zdigits2 m - Z.max 0 n1)).
  { rewrite Hm1. apply div_pow2_bound; lia. }
  assert (Hm1' : 0 <= m1') by lia.
  assert (Hdig : Zdigits2 m1' <= Z.max 0 (Zdigits2 m - Z.max 0 n1) + 1).
  { apply Zdigits2_bound; [lia|lia|].
    rewrite Z.pow_add_r by lia. change (2 ^ 1) with 2.
    assert (0 < 2 ^ Z.max 0 (Zdigits2 m - Z.max 0 n1)) by (apply Z.pow_pos_nonneg; lia).
    lia. }
  set (n2 := fexp 53 1024 (Zdigits2 m1' + e1) - e1).
  destruct (shr_m_shr (shr_record_of_loc m1' loc_Exact) e1 n2) as [Hm2 He2];
    [rewrite shr_m_record_of_loc; lia|].
  destruct (shr (shr_record_of_loc m1' loc_Exact) e1 n2) as [mrs2 e2].
  cbn [fst snd] in *.
  destruct (shr_m mrs2); try discriminate.
  assert (Hle : e2 <= 971).
  { subst e2 e1. unfold n2, n1, fexp, emin in *. lia. }
  apply Z.leb_le in Hle. change (1024 - 53) with 971. rewrite Hle. discriminate.
Qed.

Lemma SFdiv_core_bounds m1 m2 :
  0 < m1 -> 0 < m2 -> m1 < 2 ^ 1023 ->
  let '(q, e, _) := SFdiv_core_binary 53 1024 m1 0 m2 0 in
  0 <= q /\ e <= 971 /\ Zdigits2 q + e <= 1023.
Proof.
  intros H1 H2 Hlt. unfold SFdiv_core_binary.
  set (e' := Z.min (fexp 53 1024 (Zdigits2 m1 + 0 - (Zdigits2 m2 + 0))) (0 - 0)).
  assert (He' : e' <= 0) by (unfold e'; lia).
  set (m' := match 0 - 0 - e' with
             | 0 => m1
             | Z.pos _ => Z.shiftl m1 (0 - 0 - e')
             | Z.neg _ => 0
             end).
  assert (Hm' : 0 <= m' < 2 ^ (1023 - e')).
  { unfold m'. destruct (0 - 0 - e') as [|p|p] eqn:E; try lia.
    - replace (1023 - e') with 1023 by lia. lia.
    - rewrite Z.shiftl_mul_pow2 by lia. split; [apply Z.mul_nonneg_nonneg; lia|].
      replace (1023 - e') with (1023 + Zpos p) by lia.
      rewrite Z.pow_add_r by lia.
      apply Z.mul_lt_mono_pos_r; [apply Z.pow_pos_nonneg|]; lia. }
  pose proof (Z_div_mod m' m2 ltac:(lia)) as Hdm.
  destruct (Z.div_eucl m' m2) as [q r]. destruct Hdm as [Hq Hr].
  assert (Hq0 : 0 <= q) by nia.
  assert (Hqm : q <= m') by nia.
  split; [exact Hq0|]. split; [lia|].
  assert (Zdigits2 q <= 1023 - e'); [|lia].
  apply Zdigits2_bound; lia.
Qed.

Lemma int_truediv_returns a b :
  b <> 0 -> Z.abs a < 2 ^ 1023 -> exists q, Float64.int_truediv a b = Ok q.
Proof.
  intros Hb Ha. unfold Float64.int_truediv.
  destruct (Z.eqb_spec b 0) as [|_]; [contradiction|].
  destruct (Z.eqb_spec a 0) as [|Ha0]; [eauto|].
  assert (Hfin : forall s, SFdiv Float64.prec Float64.emax (Float64.raw_int a) (Float64.raw_int b)
                           <> S754_infinity s).
  { destruct a as [|pa|pa], b as [|pb|pb]; try contradiction;
      cbn [Float64.raw_int SFdiv]; unfold Float64.prec, Float64.emax;
      (pose proof (SFdiv_core_bounds (Zpos pa) (Zpos pb) ltac:(lia) ltac:(lia) ltac:(lia)) as Hc;
       destruct (SFdiv_core_binary 53 1024 (Zpos pa) 0 (Zpos pb) 0) as [[q e] l];
       destruct Hc as (Hq & He & Hd); intros s;
       apply binary_round_aux_finite; assumption). }
  destruct (SFdiv _ _ _ _) as [s|s| |s m e]; eauto.
  now destruct (Hfin s).
Qed.

End DivisionRange.

(** * Properties of the evaluator *)

Section Properties.
Context (repr_float : spec_float -> string).

Lemma determine_eligibility_guards data bmi :
  determine_eligibility repr_float data bmi =
  (c ← guard_cancer data; i ← guard_infection data; s ← guard_substance data;
   if (c || i || s)%bool
   then mret (ineligible,
              (pick c msg_cancer ++ pick i msg_infection ++ pick s msg_substance)%list)
   else
     h ← guard_heart_lung data;
     b40 ← guard_bmi_over_40 bmi;
     b35 ← guard_bmi_over_35 bmi;
     a ← guard_age data;
     u ← guard_support data;
     g ← guard_gfr data;
     mret (if (h || b40 || b35 || a || u || g)%bool then conditional else eligible,
           (pick h msg_heart_lung ++ pick b40 (msg_bmi_over_40 repr_float bmi)
            ++ pick b35 (msg_bmi_over_35 repr_float bmi) ++ pick a msg_age
            ++ pick u msg_support ++ pick g msg_gfr)%list)).
Proof.
  unfold determine_eligibility, hard_stops, conditional_checks.
  unfold check_cancer, check_infection, check_substance, check_heart_lung,
    check_age, check_support, check_gfr.
  unfold rule, check_bmi, guard_bmi_over_40, guard_bmi_over_35.
  destruct (guard_cancer data) as [[|]|?]; cbn; try reflexivity;
  destruct (guard_infection data) as [[|]|?]; cbn; try reflexivity;
  destruct (guard_substance data) as [[|]|?]; cbn; try reflexivity.
  destruct (guard_heart_lung data) as [[|]|?]; cbn; try reflexivity;
  (destruct (truthy bmi); cbn;
   [ destruct (py_gt_int bmi 40) as [[|]|?]; cbn; try reflexivity;
     [ | destruct (py_gt_int bmi 35) as [[|]|?]; cbn; try reflexivity ] | ];
   destruct (guard_age data) as [[|]|?]; cbn; try reflexivity;
   destruct (guard_support data) as [[|]|?]; cbn; try reflexivity;
   destruct (guard_gfr data) as [[|]|?]; cbn; reflexivity).
Qed.

Lemma guard_cancer_compiled a : guard_cancer (compile_data a) = Ok (active_cancer a).
Proof. reflexivity. Qed.
Lemma guard_infection_compiled a : guard_infection (compile_data a) = Ok (active_infection a).
Proof. reflexivity. Qed.
Lemma guard_substance_compiled a : guard_substance (compile_data a) = Ok (substance_abuse a).
Proof. reflexivity. Qed.
Lemma guard_heart_lung_compiled a : guard_heart_lung (compile_data a) = Ok (heart_lung_disease a).
Proof. reflexivity. Qed.
Lemma guard_support_compiled a : guard_support (compile_data a) = Ok false.
Proof. reflexivity. Qed.

Lemma float_gt_int_zero x k : (0 <= k)%Z -> float_is_zero x = true -> float_gt_int x k = false.
Proof.
  destruct x; cbn; try discriminate. intros Hk _. apply Z.ltb_ge. exact Hk.
Qed.

Lemma guard_age_compiled a : guard_age (compile_data a) = Ok (age_over a 75).
Proof.
  unfold guard_age, age_over, getitem.
  change (compile_data a !! "age") with (Some (py_opt_int (age a))).
  destruct (age a) as [n|]; cbn; [|reflexivity].
  destruct (Z.eqb_spec n 0) as [->|Hn]; cbn; reflexivity.
Qed.

Lemma guard_gfr_compiled a : guard_gfr (compile_data a) = Ok (gfr_rule a).
Proof.
  unfold guard_gfr, gfr_rule, getitem.
  change (compile_data a !! "on_dialysis") with (Some (py_dialysis (on_dialysis a))).
  change (compile_data a !! "gfr") with (Some (py_opt_float (gfr a))).
  destruct (on_dialysis a); cbn; [reflexivity|].
  destruct (gfr a) as [g|]; cbn; [|reflexivity].
  destruct (float_is_zero g) eqn:Hz; cbn; [|reflexivity].
  now rewrite float_gt_int_zero.
Qed.

Lemma guard_bmi_over_40_float b : guard_bmi_over_40 (py_opt_float b) = Ok (over b 40).
Proof.
  unfold guard_bmi_over_40. destruct b as [x|]; cbn; [|reflexivity].
  destruct (float_is_zero x) eqn:Hz; cbn; [|reflexivity].
  now rewrite float_gt_int_zero.
Qed.

Lemma guard_bmi_over_35_float b :
  guard_bmi_over_35 (py_opt_float b) = Ok (negb (over b 40) && over b 35).
Proof.
  unfold guard_bmi_over_35. destruct b as [x|]; cbn; [|reflexivity].
  destruct (float_is_zero x) eqn:Hz; cbn.
  - now rewrite !float_gt_int_zero.
  - destruct (float_gt_int x 40); reflexivity.
Qed.

Lemma compiled_verdict a b :
  determine_eligibility repr_float (compile_data a) (py_opt_float b) =
  Ok (if no_hard_stop a then
        (if (heart_lung_disease a || over b 40 || over b 35 || age_over a 75
             || gfr_rule a)%bool then conditional else eligible,
         (pick (heart_lung_disease a) msg_heart_lung
          ++ pick (over b 40) (msg_bmi_over_40 repr_float (py_opt_float b))
          ++ pick (negb (over b 40) && over b 35)
               (msg_bmi_over_35 repr_float (py_opt_float b))
          ++ pick (age_over a 75) msg_age
          ++ pick (gfr_rule a) msg_gfr)%list)
      else
        (ineligible,
         (pick (active_cancer a) msg_cancer
          ++ pick (active_infection a) msg_infection
          ++ pick (substance_abuse a) msg_substance)%list)).
Proof.
  rewrite determine_eligibility_guards.
  rewrite guard_cancer_compiled, guard_infection_compiled,
    guard_substance_compiled, guard_heart_lung_compiled, guard_age_compiled,
    guard_support_compiled, guard_gfr_compiled, guard_bmi_over_40_float,
    guard_bmi_over_35_float.
  unfold no_hard_stop.
  destruct (active_cancer a), (active_infection a), (substance_abuse a); cbn;
    try reflexivity.
  destruct (heart_lung_disease a), (over b 40), (over b 35), (age_over a 75), (gfr_rule a);
    reflexivity.
Qed.


(** The verdict is the rule table read in order: the status is the most
    severe one among the fired rules, the messages are theirs. *)
Lemma verdict_is_fired_rules data bmi s msgs :
  determine_eligibility repr_float data bmi = Ok (s, msgs) ->
  s = expected_status data bmi /\ msgs = fired_messages repr_float data bmi.
Proof.
  rewrite determine_eligibility_guards.
  unfold expected_status, fired_messages, hard_stop_fired, conditional_fired,
    hard_stop_messages, conditional_messages.
  destruct (guard_cancer data) as [[|]|?]; cbn; try discriminate;
  destruct (guard_infection data) as [[|]|?]; cbn; try discriminate;
  destruct (guard_substance data) as [[|]|?]; cbn; try discriminate;
  try (intros [= <- <-]; split; reflexivity).
  destruct (guard_heart_lung data) as [[|]|?]; cbn; try discriminate;
  (destruct (guard_bmi_over_40 bmi) as [[|]|?]; cbn; try discriminate;
   destruct (guard_bmi_over_35 bmi) as [[|]|?]; cbn; try discriminate;
   destruct (guard_age data) as [[|]|?]; cbn; try discriminate;
   destruct (guard_support data) as [[|]|?]; cbn; try discriminate;
   destruct (guard_gfr data) as [[|]|?]; cbn; try discriminate;
   intros [= <- <-]; split; reflexivity).
Qed.

Lemma prefix_append p s : String.prefix p (p +:+ s) = true.
Proof.
  induction p as [|c p IH].
  - destruct s; reflexivity.
  - change (String c p +:+ s) with (String c (p +:+ s)). cbn.
    destruct (Ascii.ascii_dec c c) as [_|Hc]; [exact IH | now destruct Hc].
Qed.

Lemma is_bmi_message_over_40 v : is_bmi_message (msg_bmi_over_40 repr_float v) = true.
Proof. apply prefix_append. Qed.

Lemma is_bmi_message_over_35 v : is_bmi_message (msg_bmi_over_35 repr_float v) = true.
Proof. apply prefix_append. Qed.


Lemma elem_of_pick (m x : string) b : m ∈ pick b x <-> b = true /\ m = x.
Proof.
  destruct b; cbn.
  - rewrite list_elem_of_singleton. intuition.
  - rewrite elem_of_nil. intuition discriminate.
Qed.

Lemma filter_pick (f : string -> bool) b x :
  List.filter f (pick b x) = pick (b && f x) x.
Proof. destruct b; cbn; [destruct (f x)|]; reflexivity. Qed.

(** A message that is not about the BMI differs from both BMI messages,
    whatever the printed value. *)
Lemma neq_msg_bmi_over_40 m v :
  is_bmi_message m = false -> m <> msg_bmi_over_40 repr_float v.
Proof. intros H ->. now rewrite is_bmi_message_over_40 in H. Qed.

Lemma neq_msg_bmi_over_35 m v :
  is_bmi_message m = false -> m <> msg_bmi_over_35 repr_float v.
Proof. intros H ->. now rewrite is_bmi_message_over_35 in H. Qed.

(** On a compiled form the support rule never fires, so its message is
    absent from every verdict. *)
Lemma support_message_never_compiled a b s msgs :
  determine_eligibility repr_float (compile_data a) (py_opt_float b) = Ok (s, msgs) ->
  msg_support ∉ msgs.
Proof.
  rewrite compiled_verdict.
  destruct (no_hard_stop a); intros [= _ <-];
    rewrite ?elem_of_app, ?elem_of_pick; intros H;
    repeat (destruct H as [H|H]); destruct H as [_ H];
    solve [ discriminate H
          | eapply neq_msg_bmi_over_40; [|exact H]; reflexivity
          | eapply neq_msg_bmi_over_35; [|exact H]; reflexivity ].
Qed.

(** C1 (the code departs from it). An applicant without any hard stop who
    answers "No / Unsure" to the support question reaches the evaluator with
    [social_support = False]; the test of rule 8 compares that boolean with
    the string "No / Unsure", which is never equal, so the verdict is
    [eligible] with no message instead of [conditional] with the
    support-system message. *)
Theorem support_rule_skips_boolean_false :
  determine_eligibility repr_float (compile_data example_no_support)
    (PyFloat f23_0) = Ok (eligible, []).
Proof. reflexivity. Qed.

(** Rule 8 does fire when the dictionary holds the radio answer itself. *)
Lemma support_rule_fires_on_radio_answer :
  determine_eligibility repr_float
    (<["social_support" := PyStr "No / Unsure"]> (compile_data example_no_support))
    (PyFloat f23_0) = Ok (conditional, [msg_support]).
Proof. reflexivity. Qed.

(** The evaluator can raise: a dictionary without the keys, or a BMI that
    does not order against a number. *)
Example missing_key_raises :
  determine_eligibility repr_float ∅ PyNone = Raise (KeyError "active_cancer").
Proof. reflexivity. Qed.

Example string_bmi_raises :
  determine_eligibility repr_float (compile_data example_1) (PyStr "23.0")
  = Raise TypeError.
Proof. reflexivity. Qed.

(** C2. As soon as one of the three hard-stop flags is true the verdict is
    [ineligible] and the messages are exactly those of the true flags, in the
    order cancer, infection, substance abuse; nothing else in the dictionary
    and no BMI value, of whatever type, can add a message. *)
Theorem hard_stops_override (data : gmap string pyval) (bmi : pyval) (c i s : bool) :
  data !! "active_cancer" = Some (PyBool c) ->
  data !! "active_infection" = Some (PyBool i) ->
  data !! "substance_abuse" = Some (PyBool s) ->
  (c || i || s)%bool = true ->
  determine_eligibility repr_float data bmi =
  Ok (ineligible,
      (pick c msg_cancer ++ pick i msg_infection ++ pick s msg_substance)%list).
Proof.
  intros Hc Hi Hs Hany. rewrite determine_eligibility_guards.
  unfold guard_cancer, guard_infection, guard_substance, guard_flag, getitem.
  rewrite Hc, Hi, Hs. cbn. now rewrite Hany.
Qed.


(** C3. Without a hard stop and with a BMI value [b]: over 40 the output
    holds exactly one BMI message, the over-40 one carrying [b]; otherwise
    over 35 exactly one, the over-35 one carrying [b]; otherwise none.  At
    most one BMI message is ever in the output. *)
Theorem bmi_messages_exclusive (a : ApplicantData) (b : spec_float) :
  no_hard_stop a = true ->
  exists s msgs,
    determine_eligibility repr_float (compile_data a) (PyFloat b) = Ok (s, msgs)
    /\ List.filter is_bmi_message msgs =
       (if float_gt_int b 40 then
          [bmi_prefix +:+ repr_float b +:+
           ". A BMI over 40 may delay listing. The team may work with you on a weight loss plan prior to surgery."]
        else if float_gt_int b 35 then
          [bmi_prefix +:+ repr_float b +:+
           ". While eligible, a BMI over 35 carries higher surgical risks."]
        else [])
    /\ (length (List.filter is_bmi_message msgs) <= 1)%nat.
Proof.
  intros Hn.
  change (PyFloat b) with (py_opt_float (Some b)).
  rewrite compiled_verdict, Hn. eexists _, _. split; [reflexivity|].
  rewrite !List.filter_app, !filter_pick.
  rewrite is_bmi_message_over_40, is_bmi_message_over_35.
  change (is_bmi_message msg_heart_lung) with false.
  change (is_bmi_message msg_age) with false.
  change (is_bmi_message msg_gfr) with false.
  rewrite !andb_false_r, !andb_true_r. cbn [over pick app].
  destruct (float_gt_int b 40), (float_gt_int b 35); cbn; split;
    (reflexivity || lia).
Qed.

(** C4. Without a hard stop, the GFR message is in the output exactly when
    the applicant is not on dialysis and has a GFR above 20, and then the
    status is [conditional]; on dialysis it never is, and neither is it for a
    GFR that is not above 20, 20 itself included. *)
Theorem gfr_rule_fires_iff (a : ApplicantData) (b : option spec_float) :
  no_hard_stop a = true ->
  exists s msgs,
    determine_eligibility repr_float (compile_data a) (py_opt_float b) = Ok (s, msgs)
    /\ (msg_gfr ∈ msgs <->
        on_dialysis a = No /\ exists g, gfr a = Some g /\ float_gt_int g 20 = true)
    /\ (msg_gfr ∈ msgs -> s = conditional)
    /\ (on_dialysis a = Yes -> msg_gfr ∉ msgs)
    /\ (gfr a = Some (Float64.of_int 20) -> msg_gfr ∉ msgs).
Proof.
  intros Hn. rewrite compiled_verdict, Hn. eexists _, _. split; [reflexivity|].
  assert (Hmem : forall h b40 b35 o,
    msg_gfr ∈ (pick h msg_heart_lung
               ++ pick b40 (msg_bmi_over_40 repr_float (py_opt_float b))
               ++ pick b35 (msg_bmi_over_35 repr_float (py_opt_float b))
               ++ pick o msg_age ++ pick (gfr_rule a) msg_gfr)%list
    <-> gfr_rule a = true).
  { intros h b40 b35 o. rewrite !elem_of_app, !elem_of_pick. split.
    - intros H. repeat (destruct H as [H|H]); destruct H as [Hb H]; try exact Hb;
        exfalso;
        solve [ discriminate H
              | eapply neq_msg_bmi_over_40; [|exact H]; reflexivity
              | eapply neq_msg_bmi_over_35; [|exact H]; reflexivity ].
    - intros H. do 4 right. split; [exact H | reflexivity]. }
  rewrite Hmem. unfold gfr_rule, over.
  split; [split|split; [|split]].
  - destruct (on_dialysis a); [discriminate|].
    destruct (gfr a) as [g|]; [|discriminate]. intros Hg. split; eauto.
  - intros [-> (g & -> & Hg)]. exact Hg.
  - destruct (on_dialysis a); [discriminate|].
    destruct (gfr a) as [g|]; [|discriminate]. intros ->.
    now rewrite !orb_true_r.
  - intros ->. discriminate.
  - intros ->. destruct (on_dialysis a); discriminate.
Qed.


(** ** Runs as traces *)

Lemma hard_stop_keeps g msg : keeps (fun _ => True) (rule g ineligible msg).
Proof.
  intros st st' _. unfold rule.
  destruct g as [[|]|e]; cbn; intros [= <-]; split; trivial; cbn.
  destruct (st_status st); cbn; lia.
Qed.

Lemma conditional_keeps g msg : keeps not_ineligible (rule g conditional msg).
Proof.
  intros st st' Hst. unfold rule, not_ineligible in *.
  destruct g as [[|]|e]; cbn; intros [= <-]; cbn; split;
    try discriminate; try assumption; try lia.
  destruct (st_status st); cbn; try lia. now destruct Hst.
Qed.

Lemma check_bmi_keeps bmi : keeps not_ineligible (check_bmi repr_float bmi).
Proof.
  intros st st' Hst. unfold check_bmi, not_ineligible in *.
  assert (Hup : (severity (st_status st) <= severity conditional)%nat).
  { destruct (st_status st); cbn; try lia. now destruct Hst. }
  destruct (truthy bmi); cbn.
  - destruct (py_gt_int bmi 40) as [[|]|e]; cbn; try discriminate.
    + intros [= <-]; cbn. split; [discriminate | exact Hup].
    + destruct (py_gt_int bmi 35) as [[|]|e]; cbn; try discriminate;
        intros [= <-]; cbn; split; try discriminate; try assumption; lia.
  - intros [= <-]. split; [assumption | lia].
Qed.

Lemma last_cons_default (x y : state) l : List.last (x :: l) y = List.last l x.
Proof.
  revert x y. induction l as [|z l IH]; intros x y; [reflexivity|].
  change (List.last (x :: z :: l) y) with (List.last (z :: l) y).
  now rewrite !IH.
Qed.

Lemma exec_trace_rises P prog :
  Forall (keeps P) prog ->
  forall st tr, P st -> exec_trace prog st = Ok tr ->
    rises (st :: tr) /\ P (List.last tr st).
Proof.
  induction 1 as [|s prog Hs _ IH]; intros st tr Hst.
  - intros [= <-]. cbn. auto.
  - cbn [exec_trace]. destruct (s st) as [st'|e] eqn:E; cbn; [|discriminate].
    destruct (exec_trace prog st') as [tr'|e] eqn:E'; cbn; [|discriminate].
    intros [= <-]. destruct (Hs st st' Hst E) as [Hst' Hle].
    destruct (IH st' tr' Hst' E') as [Hr Hl]. split.
    + cbn [rises]. split; assumption.
    + rewrite last_cons_default. exact Hl.
Qed.

Lemma rises_app x l1 l2 :
  rises (x :: l1) -> rises (List.last l1 x :: l2) -> rises (x :: l1 ++ l2).
Proof.
  revert x. induction l1 as [|y l1 IH]; intros x H1 H2.
  - exact H2.
  - destruct H1 as [Hxy H1]. cbn [app rises]. split; [exact Hxy|].
    apply IH; [exact H1|]. now rewrite last_cons_default in H2.
Qed.

Lemma last_app_default (x : state) l1 l2 :
  List.last (l1 ++ l2) x = List.last l2 (List.last l1 x).
Proof.
  revert x. induction l1 as [|y l1 IH]; intros x; [reflexivity|].
  rewrite <- app_comm_cons, !last_cons_default. apply IH.
Qed.

Lemma exec_trace_exec prog st tr :
  exec_trace prog st = Ok tr -> exec prog st = Ok (List.last tr st).
Proof.
  revert st tr. induction prog as [|s prog IH]; intros st tr.
  - intros [= <-]. reflexivity.
  - cbn [exec_trace exec]. destruct (s st) as [st'|e]; cbn; [|discriminate].
    destruct (exec_trace prog st') as [tr'|e] eqn:E'; cbn; [|discriminate].
    intros [= <-]. rewrite (IH _ _ E'). now rewrite last_cons_default.
Qed.

Lemma exec_has_trace prog st st' :
  exec prog st = Ok st' -> exists tr, exec_trace prog st = Ok tr.
Proof.
  revert st. induction prog as [|s prog IH]; intros st.
  - intros _. now exists [].
  - cbn [exec_trace exec]. destruct (s st) as [st1|e]; cbn; [|discriminate].
    intros H. destruct (IH _ H) as [tr ->]. cbn. eauto.
Qed.

Lemma hard_stops_keep data : Forall (keeps (fun _ => True)) (hard_stops data).
Proof.
  unfold hard_stops.
  repeat (apply List.Forall_cons; [apply hard_stop_keeps|]). apply List.Forall_nil.
Qed.

Lemma conditional_checks_keep data bmi :
  Forall (keeps not_ineligible) (conditional_checks repr_float data bmi).
Proof.
  unfold conditional_checks.
  repeat (apply List.Forall_cons;
          [first [apply conditional_keeps | apply check_bmi_keeps]|]).
  apply List.Forall_nil.
Qed.

(** Every verdict has a trace. *)
Lemma verdict_has_trace data bmi r :
  determine_eligibility repr_float data bmi = Ok r ->
  exists tr, eligibility_trace repr_float data bmi = Ok tr.
Proof.
  unfold determine_eligibility, eligibility_trace. intros H.
  destruct (exec (hard_stops data) initial_state) as [st1|e] eqn:E1;
    [|discriminate H].
  destruct (exec_has_trace _ _ _ E1) as [tr1 Htr1]. rewrite Htr1.
  pose proof (exec_trace_exec _ _ _ Htr1) as E1'. rewrite E1 in E1'.
  injection E1' as ->.
  change (Ok tr1 ≫= ?f) with (f tr1). change (Ok ?x ≫= ?f) with (f x) in H.
  cbv beta zeta in *.
  destruct (decide (st_status (List.last tr1 initial_state) = ineligible)).
  - eexists. reflexivity.
  - destruct (exec (conditional_checks repr_float data bmi)
                (List.last tr1 initial_state)) as [st2|e] eqn:E2;
      [|discriminate H].
    destruct (exec_has_trace _ _ _ E2) as [tr2 ->]. eexists. reflexivity.
Qed.

(** C6. A run starts in [eligible] and between two consecutive statements
    the status never becomes less severe; the verdict is the last state of
    the run.  Hence, when no hard stop fired, the verdict is [eligible]
    exactly when none of the rules 4 to 9 fired and [conditional] exactly
    when one of them did. *)
Theorem status_only_rises (data : gmap string pyval) (bmi : pyval) (tr : list state) :
  eligibility_trace repr_float data bmi = Ok tr ->
  hd_error tr = Some initial_state
  /\ st_status initial_state = eligible
  /\ rises tr
  /\ determine_eligibility repr_float data bmi =
     Ok (st_status (final tr), st_messages (final tr))
  /\ (hard_stop_fired data = false ->
      (st_status (final tr) = eligible <-> conditional_fired data bmi = false)
      /\ (st_status (final tr) = conditional <-> conditional_fired data bmi = true)).
Proof.
  unfold eligibility_trace. intros H.
  destruct (exec_trace (hard_stops data) initial_state) as [tr1|e] eqn:E1;
    [|discriminate H].
  change (Ok tr1 ≫= ?f) with (f tr1) in H. cbv beta zeta in H.
  destruct (exec_trace_rises _ _ (hard_stops_keep data) _ _ I E1) as [R1 _].
  pose proof (exec_trace_exec _ _ _ E1) as X1.
  assert (Hrun : rises tr /\ hd_error tr = Some initial_state
                 /\ determine_eligibility repr_float data bmi =
                    Ok (st_status (final tr), st_messages (final tr))).
  { unfold determine_eligibility. rewrite X1.
    change (Ok ?x ≫= ?f) with (f x). cbv beta.
    destruct (decide (st_status (List.last tr1 initial_state) = ineligible))
      as [Hin|Hin].
    - injection H as <-. rewrite app_nil_r. unfold final.
      rewrite last_cons_default. split; [exact R1|split; reflexivity].
    - destruct (exec_trace (conditional_checks repr_float data bmi)
                  (List.last tr1 initial_state)) as [tr2|e] eqn:E2;
        [|discriminate H].
      injection H as <-.
      destruct (exec_trace_rises _ _ (conditional_checks_keep data bmi) _ _ Hin E2)
        as [R2 _].
      rewrite (exec_trace_exec _ _ _ E2). unfold final.
      rewrite last_cons_default, last_app_default.
      split; [|split; reflexivity]. apply rises_app; assumption. }
  destruct Hrun as (Hr & Hhd & Hdet).
  split; [exact Hhd|]. split; [reflexivity|]. split; [exact Hr|].
  split; [exact Hdet|]. intros H0. split; split.
  - intros Hs. destruct (verdict_is_fired_rules _ _ _ _ Hdet) as [Hv _].
    unfold expected_status in Hv. rewrite H0 in Hv.
    destruct (conditional_fired data bmi); [congruence | reflexivity].
  - intros Hc. destruct (verdict_is_fired_rules _ _ _ _ Hdet) as [Hv _].
    unfold expected_status in Hv. rewrite H0, Hc in Hv. exact Hv.
  - intros Hs. destruct (verdict_is_fired_rules _ _ _ _ Hdet) as [Hv _].
    unfold expected_status in Hv. rewrite H0 in Hv.
    destruct (conditional_fired data bmi); [reflexivity | congruence].
  - intros Hc. destruct (verdict_is_fired_rules _ _ _ _ Hdet) as [Hv _].
    unfold expected_status in Hv. rewrite H0, Hc in Hv. exact Hv.
Qed.

(** C7. The messages of a verdict are those of the fired rules in the order
    1 to 9: the hard-stop messages if a hard stop fired, otherwise one
    message for every conditional rule whose test is true, none skipped
    because an earlier one matched (the two BMI tests exclude each other). *)
Theorem messages_follow_rule_order (data : gmap string pyval) (bmi : pyval)
    (s : status) (msgs : list string) :
  determine_eligibility repr_float data bmi = Ok (s, msgs) ->
  msgs =
    (if hard_stop_fired data then
       pick (fires (guard_cancer data)) msg_cancer
       ++ pick (fires (guard_infection data)) msg_infection
       ++ pick (fires (guard_substance data)) msg_substance
     else
       pick (fires (guard_heart_lung data)) msg_heart_lung
       ++ pick (fires (guard_bmi_over_40 bmi)) (msg_bmi_over_40 repr_float bmi)
       ++ pick (fires (guard_bmi_over_35 bmi)) (msg_bmi_over_35 repr_float bmi)
       ++ pick (fires (guard_age data)) msg_age
       ++ pick (fires (guard_support data)) msg_support
       ++ pick (fires (guard_gfr data)) msg_gfr)%list
  /\ (fires (guard_bmi_over_40 bmi) && fires (guard_bmi_over_35 bmi))%bool = false.
Proof.
  intros H. split.
  - exact (proj2 (verdict_is_fired_rules _ _ _ _ H)).
  - unfold guard_bmi_over_40, guard_bmi_over_35.
    destruct (truthy bmi); [|reflexivity].
    destruct (py_gt_int bmi 40) as [[|]|e]; reflexivity.
Qed.

(** C8. On a compiled form, with or without a BMI, the evaluator returns a
    status and a list of messages; an age, a GFR or a BMI that is [None]
    leaves the output without the message of its rule. *)
Theorem evaluator_never_raises (a : ApplicantData) (b : option spec_float) :
  exists s msgs,
    determine_eligibility repr_float (compile_data a) (py_opt_float b) = Ok (s, msgs)
    /\ (age a = None -> msg_age ∉ msgs)
    /\ (gfr a = None -> msg_gfr ∉ msgs)
    /\ (b = None -> forall m, m ∈ msgs -> is_bmi_message m = false).
Proof.
  rewrite compiled_verdict.
  destruct (no_hard_stop a); eexists _, _; (split; [reflexivity|]).
  - split; [|split].
    + intros Ha. unfold age_over. rewrite Ha.
      rewrite !elem_of_app, !elem_of_pick. intros H.
      repeat (destruct H as [H|H]); destruct H as [Hb H];
        solve [ discriminate H | discriminate Hb
              | eapply neq_msg_bmi_over_40; [|exact H]; reflexivity
              | eapply neq_msg_bmi_over_35; [|exact H]; reflexivity ].
    + intros Hg. unfold gfr_rule. rewrite Hg.
      rewrite !elem_of_app, !elem_of_pick. intros H.
      repeat (destruct H as [H|H]); destruct H as [Hb H];
        solve [ discriminate H | now destruct (on_dialysis a)
              | eapply neq_msg_bmi_over_40; [|exact H]; reflexivity
              | eapply neq_msg_bmi_over_35; [|exact H]; reflexivity ].
    + intros -> m. cbn [over negb andb pick app].
      rewrite !elem_of_app, !elem_of_pick. intros H.
      repeat (destruct H as [H|H]); destruct H as [_ ->]; reflexivity.
  - split; [|split].
    + intros _. rewrite !elem_of_app, !elem_of_pick. intros H.
      repeat (destruct H as [H|H]); destruct H as [_ H]; discriminate H.
    + intros _. rewrite !elem_of_app, !elem_of_pick. intros H.
      repeat (destruct H as [H|H]); destruct H as [_ H]; discriminate H.
    + intros _ m. rewrite !elem_of_app, !elem_of_pick. intros H.
      repeat (destruct H as [H|H]); destruct H as [_ ->]; reflexivity.
Qed.

(** C10. A verdict is [eligible] exactly when it carries no message; it
    carries one exactly when it is [conditional] or [ineligible]. *)
Theorem eligible_iff_no_message (data : gmap string pyval) (bmi : pyval)
    (s : status) (msgs : list string) :
  determine_eligibility repr_float data bmi = Ok (s, msgs) ->
  (s = eligible <-> msgs = [])
  /\ (msgs <> [] <-> s = conditional \/ s = ineligible).
Proof.
  intros H. destruct (verdict_is_fired_rules _ _ _ _ H) as [-> ->].
  unfold expected_status, fired_messages, hard_stop_fired, conditional_fired,
    hard_stop_messages, conditional_messages.
  destruct (fires (guard_cancer data)), (fires (guard_infection data)),
    (fires (guard_substance data)); cbn;
    try (repeat split; intros; try discriminate; try congruence; auto; fail).
  destruct (fires (guard_heart_lung data)), (fires (guard_bmi_over_40 bmi)),
    (fires (guard_bmi_over_35 bmi)), (fires (guard_age data)),
    (fires (guard_support data)), (fires (guard_gfr data)); cbn;
    repeat split; intros; try discriminate; try congruence; auto;
    intuition discriminate.
Qed.

End Properties.

(** * Properties of the BMI helper *)

Section BmiHelper.
Local Open Scope Z_scope.

(** C5. [calculate_bmi] returns [None] when the feet or the weight are
    absent or zero and when the total height in inches is not positive.
    Otherwise its result is that of [(weight / total^2) * 703] rounded to one
    decimal, and for every weight below [2^1023] in magnitude the division
    does not raise, so a float is returned.  The call in [main] passes 0 for
    absent inches. *)
Theorem calculate_bmi_spec (height_ft : option Z) (height_in : Z)
    (weight_lbs : option Z) :
  ((height_ft = None \/ height_ft = Some 0 \/ weight_lbs = None
    \/ weight_lbs = Some 0
    \/ (exists ft, height_ft = Some ft /\ ft * 12 + height_in <= 0)) ->
   calculate_bmi height_ft height_in weight_lbs = Ok None)
  /\ (forall ft lbs,
        height_ft = Some ft -> weight_lbs = Some lbs ->
        ft <> 0 -> lbs <> 0 -> 0 < ft * 12 + height_in ->
        calculate_bmi height_ft height_in weight_lbs =
          (q ← Float64.int_truediv lbs ((ft * 12 + height_in) ^ 2);
           mret (Some (Float64.round (Float64.mul_int q 703) 1)))
        /\ (Z.abs lbs < 2 ^ 1023 ->
            exists q,
              Float64.int_truediv lbs ((ft * 12 + height_in) ^ 2) = Ok q
              /\ calculate_bmi height_ft height_in weight_lbs =
                 Ok (Some (Float64.round (Float64.mul_int q 703) 1))))
  /\ current_bmi height_ft None weight_lbs = calculate_bmi height_ft 0 weight_lbs.
Proof.
  split; [|split].
  - unfold calculate_bmi.
    intros [->|[->|[->|[->|(ft & -> & Hle)]]]]; cbn; try reflexivity.
    + destruct height_ft as [ft|]; cbn; [|reflexivity].
      now rewrite andb_false_r.
    + destruct height_ft as [ft|]; cbn; [|reflexivity].
      now rewrite andb_false_r.
    + destruct (negb (ft =? 0) && truthy (py_opt_int weight_lbs))%bool;
        [|reflexivity].
      destruct weight_lbs as [lbs|]; [|reflexivity].
      destruct (Z.ltb_spec 0 (ft * 12 + height_in)); [lia | reflexivity].
  - intros ft lbs -> -> Hft Hlbs Htot.
    assert (E : calculate_bmi (Some ft) height_in (Some lbs) =
                (q ← Float64.int_truediv lbs ((ft * 12 + height_in) ^ 2);
                 mret (Some (Float64.round (Float64.mul_int q 703) 1)))).
    { unfold calculate_bmi. cbn [py_opt_int truthy].
      destruct (Z.eqb_spec ft 0) as [|_]; [contradiction|].
      destruct (Z.eqb_spec lbs 0) as [|_]; [contradiction|]. cbn [negb andb].
      destruct (Z.ltb_spec 0 (ft * 12 + height_in)); [reflexivity | lia]. }
    split; [exact E|]. intros Hbound.
    destruct (int_truediv_returns lbs ((ft * 12 + height_in) ^ 2)) as [q Hq];
      [apply Z.pow_nonzero; lia | exact Hbound |].
    exists q. split; [exact Hq|]. rewrite E, Hq. reflexivity.
  - reflexivity.
Qed.

End BmiHelper.

(** C9 as stated fails: for 5 ft 10 in and 160 lbs the helper does not
    return a value that reads 22.9 at one decimal. *)
Lemma example_1_bmi_is_not_22_9 :
  ~ (exists x, current_bmi (Some 5%Z) (Some 10%Z) (Some 160%Z) = Ok (Some x)
               /\ Float64.round x 1 = f22_9).
Proof.
  intros (x & E & H). vm_compute in E. injection E as <-.
  vm_compute in H. discriminate H.
Qed.

(** C9, amended. For age 30, not on dialysis, GFR 15, 5 ft 10 in, 160 lbs,
    no condition and a support person, the helper returns 23.0 (the quotient
    22.955... rounds up) and the evaluator, given that BMI, returns
    [eligible] with no message. *)
Theorem example_1_end_to_end :
  current_bmi (Some 5%Z) (Some 10%Z) (Some 160%Z) = Ok (Some f23_0)
  /\ forall repr_float,
       determine_eligibility repr_float (compile_data example_1) (PyFloat f23_0)
       = Ok (eligible, []).
Proof. split; [vm_compute; reflexivity | intros repr_float; reflexivity]. Qed.

(** * The theorems on the sample inputs *)

Lemma hard_stops_override_witness :
  (true || false || true)%bool = true
  /\ determine_eligibility repr_one_decimal (compile_data example_hard_stop)
       (PyFloat f42_0) = Ok (ineligible, [msg_cancer; msg_substance]).
Proof.
  split; [reflexivity|].
  apply (hard_stops_override repr_one_decimal (compile_data example_hard_stop)
           (PyFloat f42_0) true false true); reflexivity.
Defined.

Lemma bmi_messages_exclusive_witness :
  no_hard_stop example_3 = true
  /\ exists s msgs,
       determine_eligibility repr_one_decimal (compile_data example_3)
         (PyFloat f42_0) = Ok (s, msgs)
       /\ List.filter is_bmi_message msgs =
          ["Your calculated BMI is 42.0. A BMI over 40 may delay listing. The team may work with you on a weight loss plan prior to surgery."]
       /\ (length (List.filter is_bmi_message msgs) <= 1)%nat.
Proof.
  split; [reflexivity|].
  apply (bmi_messages_exclusive repr_one_decimal example_3 f42_0). reflexivity.
Defined.

Lemma gfr_rule_fires_iff_witness :
  no_hard_stop example_gfr_25 = true
  /\ exists s msgs,
       determine_eligibility repr_one_decimal (compile_data example_gfr_25)
         (py_opt_float (Some f23_0)) = Ok (s, msgs)
       /\ (msg_gfr ∈ msgs <->
           on_dialysis example_gfr_25 = No
           /\ exists g, gfr example_gfr_25 = Some g /\ float_gt_int g 20 = true)
       /\ (msg_gfr ∈ msgs -> s = conditional)
       /\ (on_dialysis example_gfr_25 = Yes -> msg_gfr ∉ msgs)
       /\ (gfr example_gfr_25 = Some (Float64.of_int 20) -> msg_gfr ∉ msgs).
Proof.
  split; [reflexivity|].
  apply (gfr_rule_fires_iff repr_one_decimal example_gfr_25 (Some f23_0)).
  reflexivity.
Defined.

Lemma calculate_bmi_spec_witness :
  calculate_bmi (Some 0%Z) 10 (Some 160%Z) = Ok None
  /\ (exists q, Float64.int_truediv 160 ((5 * 12 + 10) ^ 2) = Ok q
                /\ calculate_bmi (Some 5%Z) 10 (Some 160%Z) =
                   Ok (Some (Float64.round (Float64.mul_int q 703) 1)))
  /\ current_bmi (Some 5%Z) None (Some 160%Z) = calculate_bmi (Some 5%Z) 0 (Some 160%Z).
Proof.
  destruct (calculate_bmi_spec (Some 5%Z) 10 (Some 160%Z)) as (_ & Hsome & _).
  destruct (calculate_bmi_spec (Some 0%Z) 10 (Some 160%Z)) as (Hnone & _ & _).
  destruct (calculate_bmi_spec (Some 5%Z) 0 (Some 160%Z)) as (_ & _ & Hcall).
  split; [|split].
  - apply Hnone. right. left. reflexivity.
  - destruct (Hsome 5%Z 160%Z) as [_ Hret]; try reflexivity; try lia.
    apply Hret. reflexivity.
  - exact Hcall.
Defined.

Lemma status_only_rises_witness :
  eligibility_trace repr_one_decimal (compile_data example_3) (PyFloat f42_0)
    = Ok example_3_trace
  /\ rises example_3_trace
  /\ determine_eligibility repr_one_decimal (compile_data example_3) (PyFloat f42_0)
     = Ok (st_status (final example_3_trace), st_messages (final example_3_trace)).
Proof.
  assert (E : eligibility_trace repr_one_decimal (compile_data example_3)
                (PyFloat f42_0) = Ok example_3_trace) by (vm_compute; reflexivity).
  split; [exact E|].
  destruct (status_only_rises repr_one_decimal (compile_data example_3)
              (PyFloat f42_0) example_3_trace E) as (_ & _ & Hr & Hd & _).
  split; [exact Hr | exact Hd].
Defined.

Lemma messages_follow_rule_order_witness :
  determine_eligibility repr_one_decimal (compile_data example_3) (PyFloat f42_0)
    = Ok (conditional, [msg_bmi_over_40 repr_one_decimal (PyFloat f42_0); msg_age])
  /\ [msg_bmi_over_40 repr_one_decimal (PyFloat f42_0); msg_age]
     = fired_messages repr_one_decimal (compile_data example_3) (PyFloat f42_0).
Proof.
  assert (E : determine_eligibility repr_one_decimal (compile_data example_3)
                (PyFloat f42_0)
              = Ok (conditional,
                    [msg_bmi_over_40 repr_one_decimal (PyFloat f42_0); msg_age]))
    by (vm_compute; reflexivity).
  split; [exact E|].
  exact (proj1 (messages_follow_rule_order repr_one_decimal _ _ _ _ E)).
Defined.

Lemma evaluator_never_raises_witness :
  exists s msgs,
    determine_eligibility repr_one_decimal (compile_data example_on_dialysis)
      (py_opt_float None) = Ok (s, msgs)
    /\ (msg_age ∉ msgs) /\ (msg_gfr ∉ msgs)
    /\ (forall m, m ∈ msgs -> is_bmi_message m = false).
Proof.
  destruct (evaluator_never_raises repr_one_decimal example_on_dialysis None)
    as (s & msgs & E & Ha & Hg & Hb).
  exists s, msgs. split; [exact E|].
  split; [apply Ha; reflexivity|]. split; [apply Hg; reflexivity|].
  apply Hb; reflexivity.
Defined.

Lemma eligible_iff_no_message_witness :
  determine_eligibility repr_one_decimal (compile_data example_1) (PyFloat f23_0)
    = Ok (eligible, [])
  /\ (eligible = eligible <-> @nil string = [])
  /\ (@nil string <> [] <-> eligible = conditional \/ eligible = ineligible).
Proof.
  assert (E : determine_eligibility repr_one_decimal (compile_data example_1)
                (PyFloat f23_0) = Ok (eligible, [])) by reflexivity.
  split; [exact E|].
  exact (eligible_iff_no_message repr_one_decimal _ _ _ _ E).
Defined.

(** * More properties of the evaluator *)

Section MoreEvaluator.
Context (repr_float : spec_float -> string).

Lemma float_gt_int_mono x k k' :
  (k' <= k)%Z -> float_gt_int x k = true -> float_gt_int x k' = true.
Proof.
  intros Hk. destruct x as [s|s| |s m e]; cbn; try discriminate; try tauto.
  - rewrite !Z.ltb_lt. lia.
  - destruct (0 <=? e)%Z; rewrite !Z.ltb_lt; [lia|].
    intros H. eapply Z.le_lt_trans; [|exact H].
    apply Z.mul_le_mono_nonneg_r; [apply Z.pow_nonneg; lia | exact Hk].
Qed.

(** X9. The colour [main] gives the live BMI line agrees with the verdict:
    without a hard stop, red goes with exactly the over-40 message, orange
    with exactly the over-35 message, green with no BMI message. *)
Theorem live_colour_matches_verdict (a : ApplicantData) (b : spec_float) :
  no_hard_stop a = true ->
  exists s msgs,
    determine_eligibility repr_float (compile_data a) (PyFloat b) = Ok (s, msgs)
    /\ List.filter is_bmi_message msgs =
       (if String.eqb (bmi_color b) "red" then [msg_bmi_over_40 repr_float (PyFloat b)]
        else if String.eqb (bmi_color b) "orange"
             then [msg_bmi_over_35 repr_float (PyFloat b)]
        else []).
Proof.
  intros Hn.
  change (PyFloat b) with (py_opt_float (Some b)).
  rewrite compiled_verdict, Hn. eexists _, _. split; [reflexivity|].
  rewrite !List.filter_app, !filter_pick.
  rewrite is_bmi_message_over_40, is_bmi_message_over_35.
  change (is_bmi_message msg_heart_lung) with false.
  change (is_bmi_message msg_age) with false.
  change (is_bmi_message msg_gfr) with false.
  rewrite !andb_false_r, !andb_true_r. cbn [over pick app].
  unfold bmi_color.
  destruct (float_gt_int b 40), (float_gt_int b 35); reflexivity.
Qed.

(** X14. The verdict on a compiled form as a decision table: [ineligible]
    exactly when a hard-stop flag is set; [conditional] exactly when none is
    and there is a heart or lung disease, a BMI over 35, an age over 75 or a
    GFR over 20 off dialysis; [eligible] exactly when none of all these. *)
Theorem status_decision_table (a : ApplicantData) (b : option spec_float) :
  exists s msgs,
    determine_eligibility repr_float (compile_data a) (py_opt_float b) = Ok (s, msgs)
    /\ (s = ineligible <->
        (active_cancer a || active_infection a || substance_abuse a)%bool = true)
    /\ (s = conditional <->
        (active_cancer a || active_infection a || substance_abuse a)%bool = false
        /\ (heart_lung_disease a || over b 35 || age_over a 75 || gfr_rule a)%bool
           = true)
    /\ (s = eligible <->
        (active_cancer a || active_infection a || substance_abuse a
         || heart_lung_disease a || over b 35 || age_over a 75 || gfr_rule a)%bool
        = false).
Proof.
  rewrite compiled_verdict. unfold no_hard_stop.
  assert (H40 : over b 40 = true -> over b 35 = true).
  { destruct b as [x|]; cbn; [apply float_gt_int_mono; lia | discriminate]. }
  destruct (active_cancer a || active_infection a || substance_abuse a)%bool;
    cbn [negb orb]; eexists _, _; (split; [reflexivity|]).
  - repeat split; intros; try discriminate; try tauto.
    destruct H; discriminate.
  - destruct (heart_lung_disease a), (over b 40), (over b 35), (age_over a 75),
      (gfr_rule a); cbn in *;
      try (specialize (H40 eq_refl); discriminate H40);
      repeat split; intros; try discriminate; try tauto; try (destruct H; discriminate).
Qed.

(** X10. Two forms that differ only in the answer to the support question
    get the same verdict (or the same exception), whatever the BMI. *)
Theorem support_answer_never_matters (f : Form) (answer answer' : option support_answer)
    (bmi : pyval) :
  determine_eligibility repr_float (form_data (with_support f answer)) bmi
  = determine_eligibility repr_float (form_data (with_support f answer')) bmi.
Proof.
  rewrite !determine_eligibility_guards.
  reflexivity.
Qed.

(** X11. The three hard-stop keys are read one after the other whatever
    the earlier flags say: the first one missing raises [KeyError] with its
    name, even when an earlier flag is already true. *)
Theorem hard_stop_keys_always_read (data : gmap string pyval) (bmi : pyval) :
  (data !! "active_cancer" = None ->
   determine_eligibility repr_float data bmi = Raise (KeyError "active_cancer"))
  /\ (forall c, data !! "active_cancer" = Some c ->
      data !! "active_infection" = None ->
      determine_eligibility repr_float data bmi = Raise (KeyError "active_infection"))
  /\ (forall c i, data !! "active_cancer" = Some c ->
      data !! "active_infection" = Some i ->
      data !! "substance_abuse" = None ->
      determine_eligibility repr_float data bmi = Raise (KeyError "substance_abuse")).
Proof.
  rewrite determine_eligibility_guards.
  unfold guard_cancer, guard_infection, guard_substance, guard_flag, getitem.
  split; [|split].
  - intros ->. reflexivity.
  - intros c -> ->. reflexivity.
  - intros c i -> -> ->. reflexivity.
Qed.

(** X15. Without a hard stop, the cardiopulmonary message is in the output
    exactly when the flag is set, and the age message exactly when an age is
    given and is above 75 (75 itself and a missing age do not count). *)
Theorem heart_lung_and_age_rules (a : ApplicantData) (b : option spec_float) :
  no_hard_stop a = true ->
  exists s msgs,
    determine_eligibility repr_float (compile_data a) (py_opt_float b) = Ok (s, msgs)
    /\ (msg_heart_lung ∈ msgs <-> heart_lung_disease a = true)
    /\ (msg_age ∈ msgs <-> exists n, age a = Some n /\ (75 < n)%Z).
Proof.
  intros Hn. rewrite compiled_verdict, Hn. eexists _, _. split; [reflexivity|].
  assert (Hage : age_over a 75 = true <-> exists n, age a = Some n /\ (75 < n)%Z).
  { unfold age_over. destruct (age a) as [n|].
    - rewrite Z.ltb_lt. split; [eauto|]. now intros (n' & [= <-] & H).
    - split; [discriminate|]. now intros (n' & [=] & _). }
  rewrite <- Hage. clear Hage.
  rewrite !elem_of_app, !elem_of_pick. split; split.
  - intros H. repeat (destruct H as [H|H]); destruct H as [Hb H]; try exact Hb;
      exfalso;
      solve [ discriminate H
            | eapply neq_msg_bmi_over_40; [|exact H]; reflexivity
            | eapply neq_msg_bmi_over_35; [|exact H]; reflexivity ].
  - intros H. left. split; [exact H | reflexivity].
  - intros H. repeat (destruct H as [H|H]); destruct H as [Hb H]; try exact Hb;
      exfalso;
      solve [ discriminate H
            | eapply neq_msg_bmi_over_40; [|exact H]; reflexivity
            | eapply neq_msg_bmi_over_35; [|exact H]; reflexivity ].
  - intros H. do 3 right. left. split; [exact H | reflexivity].
Qed.

Lemma rule_appends g s msg : step_appends (rule g s msg).
Proof.
  intros st st'. unfold rule. destruct g as [[|]|e]; cbn; intros [= <-]; cbn; eauto.
Qed.

Lemma check_bmi_appends bmi : step_appends (check_bmi repr_float bmi).
Proof.
  intros st st'. unfold check_bmi. destruct (truthy bmi); cbn.
  - destruct (py_gt_int bmi 40) as [[|]|e]; cbn; try discriminate.
    + intros [= <-]; cbn; eauto.
    + destruct (py_gt_int bmi 35) as [[|]|e]; cbn; try discriminate;
        intros [= <-]; cbn; eauto.
  - intros [= <-]; eauto.
Qed.

Lemma exec_trace_appends prog :
  Forall step_appends prog ->
  forall st tr, exec_trace prog st = Ok tr -> appends (st :: tr).
Proof.
  induction 1 as [|s prog Hs _ IH]; intros st tr.
  - intros [= <-]. exact I.
  - cbn [exec_trace]. destruct (s st) as [st'|e] eqn:E; cbn; [|discriminate].
    destruct (exec_trace prog st') as [tr'|e] eqn:E'; cbn; [|discriminate].
    intros [= <-]. cbn [appends]. split; [exact (Hs _ _ E) | exact (IH _ _ E')].
Qed.

Lemma appends_app x l1 l2 :
  appends (x :: l1) -> appends (List.last l1 x :: l2) -> appends (x :: l1 ++ l2).
Proof.
  revert x. induction l1 as [|y l1 IH]; intros x H1 H2.
  - exact H2.
  - destruct H1 as [Hxy H1]. cbn [app appends]. split; [exact Hxy|].
    apply IH; [exact H1|]. now rewrite last_cons_default in H2.
Qed.

(** X12. Along a run the message list starts empty and each statement
    leaves it as it is or appends one message to its end. *)
Theorem messages_only_grow (data : gmap string pyval) (bmi : pyval) (tr : list state) :
  eligibility_trace repr_float data bmi = Ok tr ->
  appends tr /\ st_messages (List.hd initial_state tr) = [].
Proof.
  unfold eligibility_trace. intros H.
  destruct (exec_trace (hard_stops data) initial_state) as [tr1|e] eqn:E1;
    [|discriminate H].
  change (Ok tr1 ≫= ?f) with (f tr1) in H. cbv beta zeta in H.
  assert (F1 : Forall step_appends (hard_stops data)).
  { unfold hard_stops.
    repeat (apply List.Forall_cons; [apply rule_appends|]). apply List.Forall_nil. }
  assert (F2 : Forall step_appends (conditional_checks repr_float data bmi)).
  { unfold conditional_checks.
    repeat (apply List.Forall_cons;
            [first [apply rule_appends | apply check_bmi_appends]|]).
    apply List.Forall_nil. }
  pose proof (exec_trace_appends _ F1 _ _ E1) as A1.
  destruct (decide (st_status (List.last tr1 initial_state) = ineligible)).
  - injection H as <-. rewrite app_nil_r. split; [exact A1 | reflexivity].
  - destruct (exec_trace (conditional_checks repr_float data bmi)
                (List.last tr1 initial_state)) as [tr2|e] eqn:E2;
      [|discriminate H].
    injection H as <-. split; [|reflexivity].
    apply appends_app; [exact A1 | exact (exec_trace_appends _ F2 _ _ E2)].
Qed.

Lemma neq_msg_bmi_over_40_l m v :
  is_bmi_message m = false -> msg_bmi_over_40 repr_float v <> m.
Proof. intros H E. now apply (neq_msg_bmi_over_40 repr_float m v). Qed.

Lemma neq_msg_bmi_over_35_l m v :
  is_bmi_message m = false -> msg_bmi_over_35 repr_float v <> m.
Proof. intros H E. now apply (neq_msg_bmi_over_35 repr_float m v). Qed.

(** Refutes a membership in an explicit list of messages all different from
    the one looked for. *)
Ltac no_such_message H :=
  repeat (apply elem_of_cons in H as [H|H];
          [ exfalso;
            first [ discriminate H
                  | eapply neq_msg_bmi_over_40; [|exact H]; reflexivity
                  | eapply neq_msg_bmi_over_35; [|exact H]; reflexivity
                  | eapply neq_msg_bmi_over_40_l; [|exact H]; reflexivity
                  | eapply neq_msg_bmi_over_35_l; [|exact H]; reflexivity ] |]);
  now apply elem_of_nil in H.

Ltac all_distinct :=
  repeat (apply NoDup_cons_2; [let H := fresh in intros H; no_such_message H|]);
  apply NoDup_nil_2.

(** X13. A verdict never repeats a message; an [ineligible] one carries one
    to three messages, a [conditional] one one to five. *)
Theorem verdict_messages_distinct (data : gmap string pyval) (bmi : pyval)
    (s : status) (msgs : list string) :
  determine_eligibility repr_float data bmi = Ok (s, msgs) ->
  NoDup msgs
  /\ (s = ineligible -> (1 <= length msgs <= 3)%nat)
  /\ (s = conditional -> (1 <= length msgs <= 5)%nat).
Proof.
  intros H. destruct (verdict_is_fired_rules _ _ _ _ _ H) as [-> ->].
  assert (Hx : (fires (guard_bmi_over_40 bmi) && fires (guard_bmi_over_35 bmi))%bool = false).
  { unfold guard_bmi_over_40, guard_bmi_over_35.
    destruct (truthy bmi); [|reflexivity].
    destruct (py_gt_int bmi 40) as [[|]|e]; reflexivity. }
  unfold expected_status, fired_messages, hard_stop_fired, conditional_fired,
    hard_stop_messages, conditional_messages.
  destruct (fires (guard_cancer data)), (fires (guard_infection data)),
    (fires (guard_substance data)); cbn [orb pick app];
    try (split; [all_distinct | split; intros; try discriminate; cbn; lia]).
  destruct (fires (guard_heart_lung data)), (fires (guard_bmi_over_40 bmi)),
    (fires (guard_bmi_over_35 bmi)), (fires (guard_age data)),
    (fires (guard_support data)), (fires (guard_gfr data));
    try discriminate Hx; cbn [orb pick app];
    (split; [all_distinct | split; intros; try discriminate; cbn; lia]).
Qed.
End MoreEvaluator.

(** * Properties of the pages *)

(** Closes a goal from a membership in an explicit list none of whose
    elements can be the one looked for. *)
Ltac absent_in H :=
  repeat (apply elem_of_cons in H as [H|H]; [discriminate H|]);
  now apply elem_of_nil in H.

Section PageProperties.
Context (repr_float : spec_float -> string).

Lemma form_data_compiled f d :
  f_on_dialysis f = Some d -> form_data f = compile_data (applicant_of f d).
Proof.
  intros H. unfold form_data, compile_data, applicant_of, form_gfr. rewrite H.
  destruct d; reflexivity.
Qed.

Lemma form_valid_dialysis f :
  form_valid f = true -> exists d, f_on_dialysis f = Some d.
Proof.
  unfold form_valid. destruct (f_on_dialysis f) as [d|]; [eauto|].
  cbn. rewrite !orb_true_r. cbn. discriminate.
Qed.

Lemma current_bmi_in_range f :
  in_widget_ranges f = true -> weight_in_float_range f = true ->
  exists b,
    current_bmi (f_height_ft f) (f_height_in f) (f_weight f) = Ok b
    /\ (b = None <->
        f_height_ft f = None \/ f_weight f = None \/ f_weight f = Some 0%Z).
Proof.
  unfold in_widget_ranges, weight_in_float_range, current_bmi, calculate_bmi.
  intros Hr Hw.
  rewrite !andb_true_iff in Hr. destruct Hr as ((((_ & Hft) & Hin) & Hwt) & _).
  destruct (f_height_ft f) as [ft|]; cbn [py_opt_int truthy andb].
  2:{ eexists. split; [reflexivity|]. tauto. }
  destruct (f_weight f) as [w|]; cbn [py_opt_int truthy].
  2:{ rewrite andb_false_r. eexists. split; [reflexivity|]. tauto. }
  cbn in Hft. apply andb_true_iff in Hft as [Hft1 Hft2].
  apply Z.leb_le in Hft1, Hft2, Hwt. apply Z.ltb_lt in Hw.
  destruct (Z.eqb_spec ft 0) as [|_]; [lia|].
  destruct (Z.eqb_spec w 0) as [->|Hw0]; cbn [negb andb].
  { eexists. split; [reflexivity|]. tauto. }
  set (hi := match f_height_in f with Some i => i | None => 0%Z end).
  assert (Hhi : (0 <= hi <= 11)%Z).
  { unfold hi. destruct (f_height_in f) as [i|]; [|lia].
    cbn in Hin. apply andb_true_iff in Hin as [Ha Hb].
    apply Z.leb_le in Ha, Hb. lia. }
  destruct (Z.ltb_spec 0 (ft * 12 + hi)) as [_|]; [|lia].
  destruct (int_truediv_returns w ((ft * 12 + hi) ^ 2)) as [q Hq];
    [apply Z.pow_nonzero; lia | lia |].
  rewrite Hq. eexists. split; [reflexivity|].
  split; [discriminate|]. intros [|[|[=]]]; congruence.
Qed.

Lemma is_bullet_bullet m : is_bullet (bullet m) = true.
Proof. apply prefix_append. Qed.

Lemma filter_bullets msgs : List.filter is_bullet (List.map bullet msgs) = List.map bullet msgs.
Proof.
  induction msgs as [|m msgs IH]; [reflexivity|].
  cbn [List.map List.filter]. rewrite is_bullet_bullet, IH. reflexivity.
Qed.

Lemma leaves_bullets msgs : flat_map leaves (List.map bullet msgs) = List.map bullet msgs.
Proof.
  induction msgs as [|m msgs IH]; [reflexivity|].
  cbn [List.map flat_map]. rewrite IH. reflexivity.
Qed.

Lemma leaves_container es : leaves (st_container es) = flat_map leaves es.
Proof. cbn [leaves]. induction es as [|e es IH]; [reflexivity|]. cbn [flat_map]. now rewrite IH. Qed.

(** The results page, containers and columns opened up. *)
Lemma results_leaves s msgs so :
  page_leaves (page (render_results s msgs so)) =
  (results_heading
   ++ status_box s
   ++ match msgs with
      | [] => []
      | _ => st_markdown considerations_title false :: List.map bullet msgs
      end
   ++ next_steps_heading
   ++ page_leaves (next_steps s)
   ++ [st_button "Start Over" false])%list.
Proof.
  assert (Hs : page_leaves (status_box s) = status_box s) by (destruct s; reflexivity).
  destruct so; cbn [render_results page]; unfold page_leaves in *;
    rewrite !flat_map_app, Hs;
    (destruct msgs as [|m msgs];
     [ reflexivity
     | unfold considerations; cbn [flat_map]; rewrite leaves_container;
       cbn [flat_map leaves]; rewrite leaves_bullets, app_nil_r;
       reflexivity ]).
Qed.

Lemma results_bullets s msgs so :
  List.filter is_bullet (page_leaves (page (render_results s msgs so)))
  = List.map bullet msgs.
Proof.
  rewrite results_leaves, !List.filter_app.
  assert (H1 : List.filter is_bullet (status_box s) = []) by (destruct s; reflexivity).
  assert (H2 : List.filter is_bullet (page_leaves (next_steps s)) = [])
    by (destruct s; reflexivity).
  rewrite H1, H2. cbn [List.filter results_heading next_steps_heading is_bullet app].
  change (String.prefix "- " "---") with false.
  change (String.prefix "- " "### ❤️ Next Steps") with false. cbn [app].
  rewrite app_nil_r.
  destruct msgs as [|m msgs]; [reflexivity|].
  cbn [List.filter is_bullet]. change (String.prefix "- " considerations_title) with false.
  apply filter_bullets.
Qed.

Lemma elem_of_bullets e msgs : e ∈ List.map bullet msgs -> is_bullet e = true.
Proof.
  rewrite list_elem_of_In, in_map_iff. intros (m & <- & _). apply is_bullet_bullet.
Qed.

Lemma contact_shown s msgs so :
  (st_info contact_phone ∈ page_leaves (page (render_results s msgs so))
   <-> s <> ineligible)
  /\ (st_info contact_location ∈ page_leaves (page (render_results s msgs so))
      <-> s <> ineligible).
Proof.
  rewrite results_leaves.
  assert (Hb : forall body, st_info body ∉
            match msgs with
            | [] => []
            | _ => st_markdown considerations_title false :: List.map bullet msgs
            end).
  { intros body H. destruct msgs as [|m msgs]; [now apply elem_of_nil in H|].
    apply elem_of_cons in H as [H|H]; [discriminate|].
    apply elem_of_bullets in H. discriminate. }
  split; rewrite !elem_of_app; (split; [intros H Hs; subst s | intros Hs]).
  - destruct H as [H|[H|[H|[H|[H|H]]]]]; try (now apply Hb in H);
      cbn in H; absent_in H.
  - do 4 right. left. destruct s; try contradiction; cbn;
      rewrite ?elem_of_cons; tauto.
  - destruct H as [H|[H|[H|[H|[H|H]]]]]; try (now apply Hb in H);
      cbn in H; absent_in H.
  - do 4 right. left. destruct s; try contradiction; cbn;
      rewrite ?elem_of_cons; tauto.
Qed.

(** A valid form always reaches the evaluator with a dictionary that
    [compile_data] builds, and the evaluator returns. *)
Lemma valid_form_verdict f bmi :
  form_valid f = true ->
  exists d s msgs,
    f_on_dialysis f = Some d
    /\ form_data f = compile_data (applicant_of f d)
    /\ determine_eligibility repr_float (form_data f) (py_opt_float bmi) = Ok (s, msgs)
    /\ (s = ineligible <->
        (f_active_cancer f || f_active_infection f || f_substance_abuse f)%bool = true).
Proof.
  intros Hv. destruct (form_valid_dialysis f Hv) as [d Hd].
  pose proof (form_data_compiled f d Hd) as E.
  exists d. rewrite E, compiled_verdict. unfold no_hard_stop. cbn [applicant_of active_cancer active_infection substance_abuse].
  destruct (f_active_cancer f || f_active_infection f || f_substance_abuse f)%bool;
    cbn [negb]; eexists _, _; (split; [exact Hd|]); (split; [reflexivity|]);
    (split; [reflexivity|]).
  - tauto.
  - split; [|discriminate].
    match goal with |- (if ?c then _ else _) = _ -> _ => destruct c end; discriminate.
Qed.

Lemma main_submit ss f so :
  (ss = NoKey \/ ss = Stored None) ->
  form_valid f = true -> in_widget_ranges f = true ->
  weight_in_float_range f = true ->
  exists bmi s msgs,
    current_bmi (f_height_ft f) (f_height_in f) (f_weight f) = Ok bmi
    /\ determine_eligibility repr_float (form_data f) (py_opt_float bmi) = Ok (s, msgs)
    /\ main repr_float ss f true so =
       Ok (Outcome (render_header ++ [st_container (form_widgets repr_float f bmi)])
             (Stored (Some (s, msgs))) true).
Proof.
  intros Hss Hv Hr Hw.
  destruct (current_bmi_in_range f Hr Hw) as (bmi & Hb & _).
  destruct (valid_form_verdict f bmi Hv) as (d & s & msgs & _ & _ & Hd & _).
  exists bmi, s, msgs. split; [exact Hb|]. split; [exact Hd|].
  unfold main. destruct Hss as [-> | ->]; cbv beta iota zeta; rewrite Hb;
    change (Ok bmi ≫= ?k) with (k bmi); cbv beta iota zeta; rewrite Hv;
    cbn [andb]; rewrite Hd; reflexivity.
Qed.

(** X2. [calculate_bmi] returns [None] only for a missing or zero height in
    feet, a missing or zero weight, or a total height that is not positive:
    in every other case it returns a float or raises. *)
Theorem calculate_bmi_none_iff (height_ft : option Z) (height_in : Z)
    (weight_lbs : option Z) :
  calculate_bmi height_ft height_in weight_lbs = Ok None <->
  (height_ft = None \/ height_ft = Some 0%Z \/ weight_lbs = None
   \/ weight_lbs = Some 0%Z
   \/ exists ft, height_ft = Some ft /\ (ft * 12 + height_in <= 0)%Z).
Proof.
  unfold calculate_bmi.
  destruct height_ft as [ft|]; cbn [py_opt_int truthy andb]; [|tauto].
  destruct weight_lbs as [w|]; cbn [py_opt_int truthy];
    [|rewrite andb_false_r; tauto].
  destruct (Z.eqb_spec ft 0) as [->|Hft]; cbn [negb andb]; [tauto|].
  destruct (Z.eqb_spec w 0) as [->|Hw]; cbn [negb andb]; [tauto|].
  destruct (Z.ltb_spec 0 (ft * 12 + height_in)) as [Hpos|Hle].
  - split.
    + destruct (Float64.int_truediv w ((ft * 12 + height_in) ^ 2)); discriminate.
    + intros [|[[=]|[|[[=]|(ft' & [= <-] & H)]]]]; try discriminate; try congruence.
      lia.
  - split; [|reflexivity]. intros _. do 4 right. eauto.
Qed.

Lemma header_leaves : page_leaves render_header = render_header.
Proof. reflexivity. Qed.

(** The leaves of the form page. *)
Lemma form_page_leaves f bmi extra :
  page_leaves (render_header ++ [st_container (form_widgets repr_float f bmi ++ extra)])
  = (render_header ++ page_leaves (form_widgets repr_float f bmi) ++ page_leaves extra)%list.
Proof.
  unfold page_leaves. rewrite flat_map_app. cbn [flat_map].
  rewrite leaves_container, flat_map_app, app_nil_r. reflexivity.
Qed.

Lemma caption_not_in_widgets f bmi :
  st_caption caption_incomplete ∉ page_leaves (form_widgets repr_float f bmi).
Proof.
  unfold form_widgets, page_leaves. rewrite !flat_map_app, !elem_of_app.
  intros [H|[H|[H|[H|H]]]].
  - cbn in H. absent_in H.
  - destruct (py_eq_str _ _); cbn in H; absent_in H.
  - cbn in H. absent_in H.
  - unfold bmi_line in H. destruct bmi as [x|]; [destruct (truthy _)|];
      cbn in H; absent_in H.
  - cbn in H. absent_in H.
Qed.

Lemma button_in_widgets f bmi :
  st_button "Check Eligibility" (negb (form_valid f))
    ∈ page_leaves (form_widgets repr_float f bmi).
Proof.
  unfold form_widgets, page_leaves. rewrite !flat_map_app, !elem_of_app.
  do 4 right. cbn. rewrite !elem_of_cons. tauto.
Qed.

(** X4. A run of [main] on the form that does not submit (the button is not
    clicked, or the form is incomplete and the button therefore disabled)
    keeps the session without a result and does not rerun; the "please
    complete" caption is on the page exactly when the form is invalid, and
    the button is drawn disabled exactly then. *)
Theorem form_run_without_submission ss f check_clicked so :
  (ss = NoKey \/ ss = Stored None) ->
  in_widget_ranges f = true -> weight_in_float_range f = true ->
  (check_clicked && form_valid f)%bool = false ->
  exists o,
    main repr_float ss f check_clicked so = Ok o
    /\ next_session o = Stored None /\ rerun o = false
    /\ (st_caption caption_incomplete ∈ page_leaves (page o)
        <-> form_valid f = false)
    /\ st_button "Check Eligibility" (negb (form_valid f)) ∈ page_leaves (page o).
Proof.
  intros Hss Hr Hw Hc.
  destruct (current_bmi_in_range f Hr Hw) as (bmi & Hb & _).
  eexists. split.
  { unfold main. destruct Hss as [-> | ->]; cbv beta iota zeta; rewrite Hb;
      change (Ok bmi ≫= ?k) with (k bmi); cbv beta iota zeta; rewrite Hc;
      reflexivity. }
  cbn [next_session rerun page]. split; [reflexivity|]. split; [reflexivity|].
  rewrite form_page_leaves, !elem_of_app. split.
  - split.
    + intros [H|[H|H]].
      * cbn in H. absent_in H.
      * now apply caption_not_in_widgets in H.
      * destruct (form_valid f); [cbn in H; absent_in H | reflexivity].
    + intros ->. right. right. cbn. apply list_elem_of_singleton. reflexivity.
  - right. left. apply button_in_widgets.
Qed.

(** X5. Submitting a valid form stores a verdict and reruns; the next run
    shows the results whatever the widgets hold and keeps the verdict; a click
    on "Start Over" draws the same page, empties the result and reruns. *)
Theorem submit_then_start_over f f' c :
  form_valid f = true -> in_widget_ranges f = true ->
  weight_in_float_range f = true ->
  exists o1 o2 o3,
    main repr_float NoKey f true false = Ok o1 /\ rerun o1 = true
    /\ main repr_float (next_session o1) f' c false = Ok o2
    /\ next_session o2 = next_session o1 /\ rerun o2 = false
    /\ main repr_float (next_session o2) f' c true = Ok o3
    /\ next_session o3 = Stored None /\ rerun o3 = true
    /\ page o3 = page o2.
Proof.
  intros Hv Hr Hw.
  destruct (main_submit NoKey f false (or_introl eq_refl) Hv Hr Hw)
    as (bmi & s & msgs & _ & _ & E1).
  rewrite E1. eexists _, _, _. split; [reflexivity|]. split; [reflexivity|].
  cbn [next_session]. split; [reflexivity|]. cbn [main render_results next_session rerun page].
  repeat split; reflexivity.
Qed.

(** X8. After a valid form is submitted, the results page lists the
    messages of the verdict as bullets, in order and nothing else as a
    bullet, shows the status box of the verdict, and shows the phone contact
    exactly when no hard-stop box was ticked. *)
Theorem submitted_form_results f f' c :
  form_valid f = true -> in_widget_ranges f = true ->
  weight_in_float_range f = true ->
  exists bmi s msgs o1 o2,
    current_bmi (f_height_ft f) (f_height_in f) (f_weight f) = Ok bmi
    /\ determine_eligibility repr_float (form_data f) (py_opt_float bmi) = Ok (s, msgs)
    /\ main repr_float NoKey f true false = Ok o1
    /\ main repr_float (next_session o1) f' c false = Ok o2
    /\ List.filter is_bullet (page_leaves (page o2)) = List.map bullet msgs
    /\ (st_info contact_phone ∈ page_leaves (page o2) <->
        (f_active_cancer f || f_active_infection f || f_substance_abuse f)%bool = false)
    /\ (forall e, e ∈ status_box s -> e ∈ page_leaves (page o2)).
Proof.
  intros Hv Hr Hw.
  destruct (main_submit NoKey f false (or_introl eq_refl) Hv Hr Hw)
    as (bmi & s & msgs & Hb & Hd & E1).
  destruct (valid_form_verdict f bmi Hv) as (d & s' & msgs' & _ & _ & Hd' & Hs).
  rewrite Hd in Hd'. injection Hd' as <- <-.
  exists bmi, s, msgs. eexists _, _.
  split; [exact Hb|]. split; [exact Hd|]. split; [exact E1|].
  cbn [next_session main]. split; [reflexivity|].
  cbn [page]. unfold page_leaves at 1 2 3. rewrite flat_map_app.
  fold (page_leaves render_header).
  fold (page_leaves (page (render_results s msgs false))).
  split; [|split].
  - rewrite List.filter_app, results_bullets. reflexivity.
  - rewrite elem_of_app. destruct (contact_shown s msgs false) as [Hp _].
    rewrite Hp. split.
    + intros [H|H]; [cbn in H; absent_in H|].
      destruct (f_active_cancer f || f_active_infection f || f_substance_abuse f)%bool;
        [|reflexivity].
      destruct H. now apply Hs.
    + intros Hf. right. intros Hi. apply Hs in Hi. congruence.
  - intros e He. rewrite elem_of_app. right. rewrite results_leaves.
    rewrite !elem_of_app. right. left. exact He.
Qed.
(** X1. On the values the height and weight widgets can deliver (weight below
    [2^1023]) the BMI helper never raises, and it returns [None] exactly when
    the feet or the weight are missing or the weight is 0. *)
Theorem bmi_helper_on_form (f : Form) :
  in_widget_ranges f = true -> weight_in_float_range f = true ->
  exists b,
    current_bmi (f_height_ft f) (f_height_in f) (f_weight f) = Ok b
    /\ (b = None <->
        f_height_ft f = None \/ f_weight f = None \/ f_weight f = Some 0%Z).
Proof. exact (current_bmi_in_range f). Qed.

(** X3. Clicking "Check Eligibility" on a valid form within the widget
    ranges never raises: the run draws the form, stores the verdict of the
    evaluator on the compiled dictionary and the BMI, and ends in a rerun. *)
Theorem valid_form_is_evaluated (ss : session) (f : Form) (so : bool) :
  (ss = NoKey \/ ss = Stored None) ->
  form_valid f = true -> in_widget_ranges f = true ->
  weight_in_float_range f = true ->
  exists bmi s msgs,
    current_bmi (f_height_ft f) (f_height_in f) (f_weight f) = Ok bmi
    /\ determine_eligibility repr_float (form_data f) (py_opt_float bmi) = Ok (s, msgs)
    /\ main repr_float ss f true so =
       Ok (Outcome (render_header ++ [st_container (form_widgets repr_float f bmi)])
             (Stored (Some (s, msgs))) true).
Proof. exact (main_submit ss f so). Qed.

(** X6. The bullets of the results page are the messages of the verdict, one
    bullet per message, in the order of the list. *)
Theorem results_page_lists_messages (s : status) (msgs : list string) (so : bool) :
  List.filter is_bullet (page_leaves (page (render_results s msgs so)))
  = List.map bullet msgs.
Proof. exact (results_bullets s msgs so). Qed.

(** X7. The results page shows the phone number and the address exactly when
    the status is not [ineligible]. *)
Theorem contact_card_iff_not_ineligible (s : status) (msgs : list string) (so : bool) :
  (st_info contact_phone ∈ page_leaves (page (render_results s msgs so))
   <-> s <> ineligible)
  /\ (st_info contact_location ∈ page_leaves (page (render_results s msgs so))
      <-> s <> ineligible).
Proof. exact (contact_shown s msgs so). Qed.

End PageProperties.

(** * The further theorems on the sample inputs *)

Lemma bmi_helper_on_form_witness :
  in_widget_ranges form_example_1 = true
  /\ weight_in_float_range form_example_1 = true
  /\ exists b,
       current_bmi (Some 5%Z) (Some 10%Z) (Some 160%Z) = Ok b
       /\ (b = None <->
           Some 5%Z = None \/ Some 160%Z = None \/ Some 160%Z = Some 0%Z).
Proof.
  split; [reflexivity|]. split; [reflexivity|].
  apply (bmi_helper_on_form form_example_1); reflexivity.
Defined.

Lemma valid_form_is_evaluated_witness :
  form_valid form_example_1 = true
  /\ exists bmi s msgs,
       current_bmi (Some 5%Z) (Some 10%Z) (Some 160%Z) = Ok bmi
       /\ determine_eligibility repr_one_decimal (form_data form_example_1)
            (py_opt_float bmi) = Ok (s, msgs)
       /\ main repr_one_decimal NoKey form_example_1 true false =
          Ok (Outcome
                (render_header
                 ++ [st_container (form_widgets repr_one_decimal form_example_1 bmi)])
                (Stored (Some (s, msgs))) true).
Proof.
  split; [reflexivity|].
  apply (valid_form_is_evaluated repr_one_decimal NoKey form_example_1 false);
    first [reflexivity | left; reflexivity].
Defined.

Lemma form_run_without_submission_witness :
  form_valid form_incomplete = false
  /\ exists o,
       main repr_one_decimal (Stored None) form_incomplete true false = Ok o
       /\ next_session o = Stored None /\ rerun o = false
       /\ (st_caption caption_incomplete ∈ page_leaves (page o)
           <-> form_valid form_incomplete = false)
       /\ st_button "Check Eligibility" (negb (form_valid form_incomplete))
            ∈ page_leaves (page o).
Proof.
  split; [reflexivity|].
  apply (form_run_without_submission repr_one_decimal (Stored None)
           form_incomplete true false);
    first [reflexivity | right; reflexivity].
Defined.

Lemma submit_then_start_over_witness :
  exists o1 o2 o3,
    main repr_one_decimal NoKey form_example_1 true false = Ok o1
    /\ rerun o1 = true
    /\ main repr_one_decimal (next_session o1) form_incomplete true false = Ok o2
    /\ next_session o2 = next_session o1 /\ rerun o2 = false
    /\ main repr_one_decimal (next_session o2) form_incomplete true true = Ok o3
    /\ next_session o3 = Stored None /\ rerun o3 = true
    /\ page o3 = page o2.
Proof.
  apply (submit_then_start_over repr_one_decimal form_example_1 form_incomplete true);
    reflexivity.
Defined.

Lemma submitted_form_results_witness :
  exists bmi s msgs o1 o2,
    current_bmi (Some 5%Z) (Some 10%Z) (Some 160%Z) = Ok bmi
    /\ determine_eligibility repr_one_decimal (form_data form_cancer)
         (py_opt_float bmi) = Ok (s, msgs)
    /\ main repr_one_decimal NoKey form_cancer true false = Ok o1
    /\ main repr_one_decimal (next_session o1) form_incomplete false false = Ok o2
    /\ List.filter is_bullet (page_leaves (page o2)) = List.map bullet msgs
    /\ (st_info contact_phone ∈ page_leaves (page o2) <->
        (true || false || false)%bool = false)
    /\ (forall e, e ∈ status_box s -> e ∈ page_leaves (page o2)).
Proof.
  apply (submitted_form_results repr_one_decimal form_cancer form_incomplete false);
    reflexivity.
Defined.

Lemma live_colour_matches_verdict_witness :
  no_hard_stop example_3 = true
  /\ bmi_color f42_0 = "red"
  /\ exists s msgs,
       determine_eligibility repr_one_decimal (compile_data example_3)
         (PyFloat f42_0) = Ok (s, msgs)
       /\ List.filter is_bmi_message msgs
          = [msg_bmi_over_40 repr_one_decimal (PyFloat f42_0)].
Proof.
  split; [reflexivity|]. split; [reflexivity|].
  apply (live_colour_matches_verdict repr_one_decimal example_3 f42_0).
  reflexivity.
Defined.

Lemma hard_stop_keys_always_read_witness :
  determine_eligibility repr_one_decimal
    (delete "substance_abuse" (compile_data example_hard_stop)) (PyFloat f42_0)
  = Raise (KeyError "substance_abuse").
Proof.
  destruct (hard_stop_keys_always_read repr_one_decimal
              (delete "substance_abuse" (compile_data example_hard_stop))
              (PyFloat f42_0)) as (_ & _ & H).
  apply (H (PyBool true) (PyBool false)); reflexivity.
Defined.

Lemma messages_only_grow_witness :
  eligibility_trace repr_one_decimal (compile_data example_3) (PyFloat f42_0)
    = Ok example_3_trace
  /\ appends example_3_trace
  /\ st_messages (List.hd initial_state example_3_trace) = [].
Proof.
  assert (E : eligibility_trace repr_one_decimal (compile_data example_3)
                (PyFloat f42_0) = Ok example_3_trace) by (vm_compute; reflexivity).
  split; [exact E|].
  exact (messages_only_grow repr_one_decimal _ _ _ E).
Defined.

Lemma verdict_messages_distinct_witness :
  determine_eligibility repr_one_decimal (compile_data example_3) (PyFloat f42_0)
    = Ok (conditional, [msg_bmi_over_40 repr_one_decimal (PyFloat f42_0); msg_age])
  /\ NoDup [msg_bmi_over_40 repr_one_decimal (PyFloat f42_0); msg_age]
  /\ (1 <= 2 <= 5)%nat.
Proof.
  assert (E : determine_eligibility repr_one_decimal (compile_data example_3)
                (PyFloat f42_0)
              = Ok (conditional,
                    [msg_bmi_over_40 repr_one_decimal (PyFloat f42_0); msg_age]))
    by (vm_compute; reflexivity).
  split; [exact E|].
  destruct (verdict_messages_distinct repr_one_decimal _ _ _ _ E) as (Hd & _ & Hc).
  split; [exact Hd | exact (Hc eq_refl)].
Defined.

Lemma heart_lung_and_age_rules_witness :
  no_hard_stop example_3 = true
  /\ exists s msgs,
       determine_eligibility repr_one_decimal (compile_data example_3)
         (py_opt_float (Some f42_0)) = Ok (s, msgs)
       /\ (msg_heart_lung ∈ msgs <-> heart_lung_disease example_3 = true)
       /\ (msg_age ∈ msgs <-> exists n, age example_3 = Some n /\ (75 < n)%Z).
Proof.
  split; [reflexivity|].
  apply (heart_lung_and_age_rules repr_one_decimal example_3 (Some f42_0)).
  reflexivity.
Defined.
